(** * Membership service of the organization module

    A shallow embedding of [src/organization/organization.service.ts]:
    the nine request handlers of [OrganizationService], run against a
    relational store (Prisma), a transient key-value store (Redis) and an
    email transport, together with the properties the specification states
    about them. *)

From Stdlib Require Import ZArith Ascii String List Lia.
From stdpp Require Import base strings gmap list.

Local Open Scope nat_scope.

(** ** Outcomes of a call

    A JavaScript call returns a value, throws, or has not finished with the
    entropy it was given (the generator of [otp-generator] loops until it
    has drawn enough characters). An [async] method settles the same way. *)

Inductive JsError : Type :=
| Error (message : string)
| SyntaxError (message : string)
| TypeError (message : string)
| RangeError (message : string)
| PrismaClientKnownRequestError (code : string)
| PrismaClientValidationError (message : string).

Inductive Outcome (A : Type) : Type :=
| Returned (v : A)
| Thrown (e : JsError)
| Unfinished.

Arguments Returned {A} v.
Arguments Thrown {A} e.
Arguments Unfinished {A}.

(** ** Characters and strings *)

Definition is_digit (c : ascii) : bool :=
  (48 <=? nat_of_ascii c) && (nat_of_ascii c <=? 57).

Definition is_upper (c : ascii) : bool :=
  (65 <=? nat_of_ascii c) && (nat_of_ascii c <=? 90).

Definition chars (s : string) : list ascii := list_ascii_of_string s.

Definition all_digits (s : string) : bool := forallb is_digit (chars s).

Definition all_digits_or_upper (s : string) : bool :=
  forallb (fun c => is_digit c || is_upper c) (chars s).

Definition char_string (c : ascii) : string := String c EmptyString.

(** ** The [otp-generator] package

    [generate(length, options)] of otp-generator 4: the alphabet is the
    concatenation of the enabled character classes, characters are drawn
    with [crypto.randomInt(0, allowsChars.length)], and a leading ['0'] is
    drawn again when digits are enabled. The draws of [crypto.randomInt]
    are the [entropy] argument, one raw value per call. *)

Module otp.

Record Options : Type := {
  digits : bool;
  lowerCaseAlphabets : bool;
  upperCaseAlphabets : bool;
  specialChars : bool
}.

Definition digits_chars : string := "0123456789".
Definition lowerCaseAlphabets_chars : string := "abcdefghijklmnopqrstuvwxyz".
Definition upperCaseAlphabets_chars : string := "ABCDEFGHIJKLMNOPQRSTUVWXYZ".
Definition specialChars_chars : string := "#!&@".

Definition allowsChars (o : Options) : string :=
  (if digits o then digits_chars else EmptyString) +:+
  (if lowerCaseAlphabets o then lowerCaseAlphabets_chars else EmptyString) +:+
  (if upperCaseAlphabets o then upperCaseAlphabets_chars else EmptyString) +:+
  (if specialChars o then specialChars_chars else EmptyString).

(** [crypto.randomInt(0, max)] on the raw draw [r]. *)
Definition randomInt (max r : nat) : nat := r mod max.

(** The [while (password.length < length)] loop. *)
Fixpoint generate_loop (length : nat) (o : Options) (entropy : list nat)
    (password : string) : Outcome string :=
  if String.length password <? length then
    match entropy with
    | [] => Unfinished
    | r :: entropy' =>
        if String.length (allowsChars o) =? 0 then
          Thrown (RangeError "ERR_OUT_OF_RANGE")
        else
          let charIndex := randomInt (String.length (allowsChars o)) r in
          match String.get charIndex (allowsChars o) with
          | Some c =>
              if (String.length password =? 0) && digits o
                 && Ascii.eqb c "0"%char
              then generate_loop length o entropy' password
              else generate_loop length o entropy' (password +:+ char_string c)
          | None =>
              (* [allowsChars[charIndex]] is [undefined] out of range *)
              generate_loop length o entropy' (password +:+ "undefined")
          end
    end
  else Returned password.

Definition generate (length : nat) (o : Options) (entropy : list nat)
    : Outcome string :=
  let length := if length =? 0 then 10 else length in
  generate_loop length o entropy EmptyString.

End otp.

(** The call of line 71:
    [otp.generate(6, { lowerCaseAlphabets: false, specialChars: false,
                       digits: true, upperCaseAlphabets: true })]. *)
Definition inviteUser_options : otp.Options :=
  {| otp.digits := true;
     otp.lowerCaseAlphabets := false;
     otp.upperCaseAlphabets := true;
     otp.specialChars := false |}.

Definition inviteUser_code (entropy : list nat) : Outcome string :=
  otp.generate 6 inviteUser_options entropy.


(** ** JSON values

    The values [JSON.parse] produces. A property read on anything that is
    not an object, or of a property an object lacks, is [undefined], here
    [None]. Numbers are kept to the integers; the payloads this service
    writes hold none. *)

#[local] Set Warnings "-register-all".

Inductive json : Type :=
| JNull
| JBool (b : bool)
| JNum (n : Z)
| JStr (s : string)
| JArr (items : list json)
| JObj (fields : list (string * json)).

(** [!!v]: JavaScript truthiness. *)
Definition truthy (v : json) : bool :=
  match v with
  | JNull => false
  | JBool b => b
  | JNum n => negb (n =? 0)%Z
  | JStr s => negb (String.length s =? 0)
  | JArr _ => true
  | JObj _ => true
  end.

Definition truthy_prop (v : option json) : bool :=
  match v with
  | Some v => truthy v
  | None => false
  end.

Fixpoint assoc (k : string) (fields : list (string * json)) : option json :=
  match fields with
  | [] => None
  | (k', v) :: fields' => if String.eqb k k' then Some v else assoc k fields'
  end.

(** [v.k] *)
Definition prop (v : json) (k : string) : option json :=
  match v with
  | JObj fields => assoc k fields
  | _ => None
  end.

(** [v === s] for a string [s]. *)
Definition strict_eq_string (v : option json) (s : string) : bool :=
  match v with
  | Some (JStr s') => String.eqb s' s
  | _ => false
  end.

(** An object literal; a property whose value is [undefined] is not
    serialized. *)
Fixpoint object (fields : list (string * option json)) : list (string * json) :=
  match fields with
  | [] => []
  | (k, Some v) :: fields' => (k, v) :: object fields'
  | (_, None) :: fields' => object fields'
  end.

(** A text held by the key-value store, represented by what [JSON.parse]
    makes of it: [JsonText v] is the text [JSON.stringify] writes for [v]
    (it parses back to [v]), [NotJson s] is a text [s] on which
    [JSON.parse] throws. *)
Inductive Text : Type :=
| JsonText (v : json)
| NotJson (s : string).

Definition JSON_stringify (v : json) : Text := JsonText v.

(** [JSON.parse(t)]; the argument [null] is converted to the text [null]. *)
Definition JSON_parse (t : option Text) : Outcome json :=
  match t with
  | None => Returned JNull
  | Some (JsonText v) => Returned v
  | Some (NotJson s) => Thrown (SyntaxError "Unexpected token in JSON")
  end.

(** ** The relational store

    The four tables the service reads and writes through Prisma. Rows are
    kept in insertion order; [findFirst] and [findMany] scan in that
    order. *)

Module User.
(** Modelled from the spec: the Prisma schema is not part of the service
    file. A user has a unique [id], a unique [email], credential data
    and profile data. *)
Record t : Type := {
  id : string;
  email : string;
  authData : json;
  profileData : json
}.
End User.

Module Organization.
(** Modelled from the spec: an organization has a unique [id], a [name]
    and a globally unique [identifier]. *)
Record t : Type := {
  id : string;
  name : string;
  identifier : string
}.
End Organization.

Module OrganizationUser.
(** Modelled from the spec: a membership links one user to one
    organization and carries the admin flag; its role labels are the
    rows of [Role] that point to it. *)
Record t : Type := {
  id : string;
  userID : string;
  organizationID : string;
  isAdmin : bool
}.
End OrganizationUser.

Module Role.
(** Modelled from the spec: a role label is a name owned by one
    membership; equal names may coexist. *)
Record t : Type := {
  name : string;
  organizationUserID : string
}.
End Role.

Module Prisma.

Record t : Type := {
  user : list User.t;
  organization : list Organization.t;
  organizationUser : list OrganizationUser.t;
  role : list Role.t
}.

(** Error codes of the client: unique constraint, foreign key, record
    not found. *)
Definition P2002 : JsError := PrismaClientKnownRequestError "P2002".
Definition P2003 : JsError := PrismaClientKnownRequestError "P2003".
Definition P2025 : JsError := PrismaClientKnownRequestError "P2025".

Definition user_by_email (email : string) (db : t) : option User.t :=
  List.find (fun u => String.eqb (User.email u) email) (user db).

Definition user_by_id (id : string) (db : t) : option User.t :=
  List.find (fun u => String.eqb (User.id u) id) (user db).

Definition organization_by_id (id : string) (db : t) : option Organization.t :=
  List.find (fun o => String.eqb (Organization.id o) id) (organization db).

Definition organization_by_identifier (identifier : string) (db : t)
    : option Organization.t :=
  List.find (fun o => String.eqb (Organization.identifier o) identifier)
       (organization db).

Definition organizationUser_by_id (id : string) (db : t)
    : option OrganizationUser.t :=
  List.find (fun m => String.eqb (OrganizationUser.id m) id) (organizationUser db).

(** [organizationUser.findFirst] and [organizationUser.findMany] with a
    [where] filter. *)
Definition organizationUser_findFirst (where_ : OrganizationUser.t -> bool)
    (db : t) : option OrganizationUser.t :=
  List.find where_ (organizationUser db).

Definition organizationUser_findMany (where_ : OrganizationUser.t -> bool)
    (db : t) : list OrganizationUser.t :=
  List.filter where_ (organizationUser db).

Definition with_user (u : User.t) (db : t) : t :=
  {| user := user db ++ [u];
     organization := organization db;
     organizationUser := organizationUser db;
     role := role db |}.

Definition with_organization (o : Organization.t) (db : t) : t :=
  {| user := user db;
     organization := organization db ++ [o];
     organizationUser := organizationUser db;
     role := role db |}.

Definition with_organizationUser (m : OrganizationUser.t) (roles : list string)
    (db : t) : t :=
  {| user := user db;
     organization := organization db;
     organizationUser := organizationUser db ++ [m];
     role := role db ++
             map (fun r => {| Role.name := r;
                              Role.organizationUserID := OrganizationUser.id m |})
                 roles |}.

(** Modelled from the spec: [user.create]; the generated [id] and the
    [email] must be unused. *)
Definition user_create (u : User.t) (db : t) : Outcome User.t * t :=
  match user_by_id (User.id u) db, user_by_email (User.email u) db with
  | None, None => (Returned u, with_user u db)
  | _, _ => (Thrown P2002, db)
  end.

(** Modelled from the spec: [organizationUser.create] with scalar
    [userID] and [organizationID] and a nested [createMany] of role
    labels; the generated [id] must be unused and both references must
    exist (referential integrity). *)
Definition organizationUser_create (m : OrganizationUser.t)
    (roles : list string) (db : t) : Outcome OrganizationUser.t * t :=
  match organizationUser_by_id (OrganizationUser.id m) db with
  | Some _ => (Thrown P2002, db)
  | None =>
      match user_by_id (OrganizationUser.userID m) db,
            organization_by_id (OrganizationUser.organizationID m) db with
      | Some _, Some _ => (Returned m, with_organizationUser m roles db)
      | _, _ => (Thrown P2003, db)
      end
  end.

(** Modelled from the spec: the nested write of [addUser], one
    transaction: create the user, connect the organization, create the
    membership and its role labels. *)
Definition organizationUser_create_with_user (u : User.t)
    (m : OrganizationUser.t) (roles : list string) (db : t)
    : Outcome OrganizationUser.t * t :=
  match user_create u db with
  | (Returned _, db') =>
      match organization_by_id (OrganizationUser.organizationID m) db',
            organizationUser_by_id (OrganizationUser.id m) db' with
      | Some _, None => (Returned m, with_organizationUser m roles db')
      | None, _ => (Thrown P2025, db)
      | Some _, Some _ => (Thrown P2002, db)
      end
  | (Thrown e, _) => (Thrown e, db)
  | (Unfinished, _) => (Unfinished, db)
  end.

(** Modelled from the spec: the nested write of [createOrganization],
    one transaction: connect the user, create the organization (unused
    [id], unused [identifier]) and the membership. *)
Definition organizationUser_create_with_organization (o : Organization.t)
    (m : OrganizationUser.t) (db : t) : Outcome OrganizationUser.t * t :=
  match user_by_id (OrganizationUser.userID m) db with
  | None => (Thrown P2025, db)
  | Some _ =>
      match organization_by_id (Organization.id o) db,
            organization_by_identifier (Organization.identifier o) db,
            organizationUser_by_id (OrganizationUser.id m) db with
      | None, None, None =>
          (Returned m, with_organizationUser m [] (with_organization o db))
      | _, _, _ => (Thrown P2002, db)
      end
  end.

(** Modelled from the spec: [organizationUser.delete] by [id], cascading
    to the role labels the membership owns. *)
Definition organizationUser_delete (id : string) (db : t)
    : Outcome OrganizationUser.t * t :=
  match organizationUser_by_id id db with
  | None => (Thrown P2025, db)
  | Some m =>
      (Returned m,
       {| user := user db;
          organization := organization db;
          organizationUser :=
            List.filter
              (fun m' => negb (String.eqb (OrganizationUser.id m') id))
              (organizationUser db);
          role :=
            List.filter
              (fun r => negb (String.eqb (Role.organizationUserID r) id))
              (role db) |})
  end.

(** Modelled from the spec: [role.create]; the owning membership must
    exist. *)
Definition role_create (r : Role.t) (db : t) : Outcome Role.t * t :=
  match organizationUser_by_id (Role.organizationUserID r) db with
  | None => (Thrown P2003, db)
  | Some _ =>
      (Returned r,
       {| user := user db;
          organization := organization db;
          organizationUser := organizationUser db;
          role := role db ++ [r] |})
  end.

(** Modelled from the spec: [role.deleteMany] by name and owner; the
    result is the number of rows removed. *)
Definition role_deleteMany (name organizationUserID : string) (db : t)
    : Outcome nat * t :=
  let hit (r : Role.t) :=
    String.eqb (Role.name r) name
    && String.eqb (Role.organizationUserID r) organizationUserID in
  (Returned (length (List.filter hit (role db))),
   {| user := user db;
      organization := organization db;
      organizationUser := organizationUser db;
      role := List.filter (fun r => negb (hit r)) (role db) |}).

(** Modelled from the spec: [organization.delete] by [id], cascading to
    the memberships of the organization and to their role labels. *)
Definition organization_delete (id : string) (db : t)
    : Outcome Organization.t * t :=
  match organization_by_id id db with
  | None => (Thrown P2025, db)
  | Some o =>
      let gone (m : OrganizationUser.t) :=
        String.eqb (OrganizationUser.organizationID m) id in
      let owners :=
        map OrganizationUser.id (List.filter gone (organizationUser db)) in
      (Returned o,
       {| user := user db;
          organization :=
            List.filter (fun o' => negb (String.eqb (Organization.id o') id))
                        (organization db);
          organizationUser :=
            List.filter (fun m => negb (gone m)) (organizationUser db);
          role :=
            List.filter
              (fun r => negb (existsb (String.eqb (Role.organizationUserID r))
                                      owners))
              (role db) |})
  end.

End Prisma.

(** ** The collaborators and the state of a request *)

Module Redis.
(** A key holds a text and the expiry ([EX], seconds) it was set with. *)
Record Entry : Type := {
  value : Text;
  EX : nat
}.
End Redis.

Module Mailer.
Record Email : Type := {
  to : string;
  subject : string;
  html : string
}.
End Mailer.

Record World : Type := {
  prisma : Prisma.t;
  redis : gmap string Redis.Entry;
  mailer : list Mailer.Email
}.

(** An [async] method: it runs on the stores, settles, and leaves the
    stores as they are at that point. Nothing is rolled back when a later
    step throws. *)
Definition M (A : Type) : Type := World -> Outcome A * World.

Definition ret {A : Type} (v : A) : M A := fun w => (Returned v, w).

Definition throw {A : Type} (e : JsError) : M A := fun w => (Thrown e, w).

Definition settle {A : Type} (o : Outcome A) : M A := fun w => (o, w).

Definition bind {A B : Type} (m : M A) (k : A -> M B) : M B :=
  fun w =>
    match m w with
    | (Returned v, w') => k v w'
    | (Thrown e, w') => (Thrown e, w')
    | (Unfinished, w') => (Unfinished, w')
    end.

Declare Scope async_scope.
Delimit Scope async_scope with async.
Notation "x <- m ;; k" := (bind m (fun x => k))
  (at level 100, m at next level, right associativity) : async_scope.
Notation "m ;; k" := (bind m (fun _ => k))
  (at level 100, right associativity) : async_scope.

Definition prisma_read {A : Type} (q : Prisma.t -> A) : M A :=
  fun w => (Returned (q (prisma w)), w).

Definition prisma_write {A : Type} (q : Prisma.t -> Outcome A * Prisma.t) : M A :=
  fun w =>
    let (r, db) := q (prisma w) in
    (r, {| prisma := db; redis := redis w; mailer := mailer w |}).

(** Modelled from the spec: the key-value client, [get(key)],
    [set(key, value, { EX })] and [del(key)]. *)
Definition redis_get (key : string) : M (option Text) :=
  fun w => (Returned (Redis.value <$> redis w !! key), w).

Definition redis_set (key : string) (value : Text) (EX : nat) : M unit :=
  fun w =>
    (Returned tt,
     {| prisma := prisma w;
        redis := <[key := {| Redis.value := value; Redis.EX := EX |}]> (redis w);
        mailer := mailer w |}).

Definition redis_del (key : string) : M unit :=
  fun w =>
    (Returned tt,
     {| prisma := prisma w;
        redis := delete key (redis w);
        mailer := mailer w |}).

(** Modelled from the spec: [sendEmail(to, subject, html)] hands the
    message to the transport. *)
Definition sendEmail (to subject html : string) : M unit :=
  fun w =>
    (Returned tt,
     {| prisma := prisma w;
        redis := redis w;
        mailer := mailer w ++ [{| Mailer.to := to;
                                  Mailer.subject := subject;
                                  Mailer.html := html |}] |}).

(** Static configuration, [src/keys]. *)
Record Keys : Type := {
  REDIRECT_URL : string;
  ORG_NAME : string;
  CODE_EXPIRY : nat
}.

(** [randomBytes(size)] on an entropy source, and [toString("hex")]. *)
Definition randomBytes (size : nat) (entropy : nat -> nat) : list nat :=
  map (fun i => entropy i mod 256) (seq 0 size).

Definition hex_digit (n : nat) : ascii :=
  match String.get n "0123456789abcdef" with
  | Some c => c
  | None => "0"%char
  end.

Fixpoint toString_hex (buffer : list nat) : string :=
  match buffer with
  | [] => EmptyString
  | b :: buffer' =>
      String (hex_digit (b / 16)) (String (hex_digit (b mod 16))
                                          (toString_hex buffer'))
  end.

Definition string_of_bool (b : bool) : string :=
  if b then "true" else "false".

Definition dquote : string := String "034"%char EmptyString.
Definition newline : string := String "010"%char EmptyString.

(** The rows [fetchOrganizationUsers] returns: the membership and, under
    [user], the selected columns of the linked user. *)
Record UserSelect : Type := {
  select_email : string;
  select_profileData : json
}.

Record OrganizationUserWithUser : Type := {
  membership : OrganizationUser.t;
  include_user : option UserSelect
}.

(** ** The service *)

Section OrganizationService.

Local Open Scope async_scope.

Variable keys : Keys.

(** [bcrypt.hash(data, rounds)]: the digest of [data] under the salt the
    library draws. *)
Variable bcrypt_digest : string -> nat -> string -> string.

Definition bcrypt_hash (salt : string) (data : option string) (rounds : nat)
    : M string :=
  match data with
  | None => throw (Error "data and salt arguments required")
  | Some data => ret (bcrypt_digest data rounds salt)
  end.

(** The ids the store generates for new rows are arguments
    ([new_userID], [new_organizationID], [new_organizationUserID]), as
    are the salt of [bcrypt] and the entropy of the random sources. *)

Definition addUser (new_userID new_organizationUserID : string)
    (email name password organizationID : string) (roles : list string)
    : M OrganizationUser.t :=
  orguser <- prisma_write
    (Prisma.organizationUser_create_with_user
       {| User.id := new_userID;
          User.email := email;
          User.authData := JObj [("password", JStr password)];
          User.profileData := JObj [("firstname", JStr name)] |}
       {| OrganizationUser.id := new_organizationUserID;
          OrganizationUser.userID := new_userID;
          OrganizationUser.organizationID := organizationID;
          OrganizationUser.isAdmin := false |}
       roles) ;;
  ret orguser.

Definition invite_key (organizationID email : string) : string :=
  "invite:" +:+ organizationID +:+ "-" +:+ email.

Definition invite_subject (organization : Organization.t) : string :=
  "Invitation: You've been invited to join " +:+ Organization.name organization.

Definition invite_html (organization : Organization.t)
    (email name organizationID : string) (newUser : bool) (code : string)
    : string :=
  newline +:+
  "            <p>Hi " +:+ name +:+ ",</p>" +:+ newline +:+
  "            <p>You've been invited to join "
    +:+ Organization.name organization +:+ "</p>" +:+ newline +:+
  "            <p>If you want to join please press the link <a href="
    +:+ dquote +:+ REDIRECT_URL keys +:+ "/join?user=" +:+ email
    +:+ "&org=" +:+ organizationID
    +:+ "&newuser=" +:+ string_of_bool newUser
    +:+ "&code=" +:+ code +:+ "&name=" +:+ name +:+ dquote
    +:+ ">here</a></p>" +:+ newline +:+
  "            <p>Thanks,</p>" +:+ newline +:+
  "            <p>" +:+ ORG_NAME keys +:+ ".</p>" +:+ newline +:+
  "        ".

Definition invite_payload (code name : string) (newUser : bool)
    (roles : list string) : json :=
  JObj [("code", JStr code); ("name", JStr name);
        ("newuser", JBool newUser); ("roles", JArr (map JStr roles))].

Definition inviteUser (entropy : list nat)
    (email name organizationID : string) (roles : list string) : M bool :=
  user <- prisma_read (Prisma.user_by_email email) ;;
  organization <- prisma_read (Prisma.organization_by_id organizationID) ;;
  match organization with
  | None => throw (Error "no organization exists")
  | Some organization =>
      match user with
      | Some user =>
          orgUser <- prisma_read
            (Prisma.organizationUser_findFirst
               (fun m =>
                  String.eqb (OrganizationUser.organizationID m)
                             (Organization.id organization)
                  && String.eqb (OrganizationUser.userID m) (User.id user))) ;;
          match orgUser with
          | Some _ => throw (Error "already part of organization")
          | None => ret tt
          end
      | None => ret tt
      end ;;
      let newUser := match user with None => true | Some _ => false end in
      code <- settle (inviteUser_code entropy) ;;
      sendEmail email (invite_subject organization)
        (invite_html organization email name organizationID newUser code) ;;
      redis_set (invite_key organizationID email)
        (JSON_stringify (invite_payload code name newUser roles))
        (CODE_EXPIRY keys) ;;
      ret true
  end.

(** [invite.roles.map((role) => ({ name: role }))], then the check of
    the client that every [name] is a string. *)
Fixpoint role_names (items : list json) : option (list string) :=
  match items with
  | [] => Some []
  | JStr r :: items' =>
      match role_names items' with
      | Some rs => Some (r :: rs)
      | None => None
      end
  | _ :: _ => None
  end.

Definition acceptInvitation (salt new_userID new_organizationUserID : string)
    (email organizationID code : string) (password : option string) : M bool :=
  inviteData <- redis_get (invite_key organizationID email) ;;
  invite <- settle (JSON_parse inviteData) ;;
  if negb (truthy invite) || negb (truthy_prop (prop invite "code"))
     || negb (strict_eq_string (prop invite "code") code)
  then throw (Error "unable to verify code")
  else
    user <- (if negb (truthy_prop (prop invite "newuser"))
             then prisma_read (Prisma.user_by_email email)
             else ret None) ;;
    user <- (if truthy_prop (prop invite "newuser")
             then
               hashpass <- bcrypt_hash salt password 10 ;;
               created <- prisma_write
                 (Prisma.user_create
                    {| User.id := new_userID;
                       User.email := email;
                       User.authData := JObj [("password", JStr hashpass)];
                       User.profileData :=
                         JObj (object [("firstname", prop invite "name");
                                       ("lastname", Some (JStr EmptyString));
                                       ("status", Some (JStr "verified"))]) |}) ;;
               ret (Some created)
             else ret user) ;;
    match user with
    | None =>
        throw (TypeError "Cannot read properties of null (reading 'id')")
    | Some user =>
        match prop invite "roles" with
        | Some (JArr items) =>
            match role_names items with
            | Some roles =>
                prisma_write
                  (Prisma.organizationUser_create
                     {| OrganizationUser.id := new_organizationUserID;
                        OrganizationUser.userID := User.id user;
                        OrganizationUser.organizationID := organizationID;
                        OrganizationUser.isAdmin := false |}
                     roles) ;;
                redis_del (invite_key organizationID email) ;;
                ret true
            | None =>
                throw (PrismaClientValidationError
                         "Argument name: expected String")
            end
        | Some _ => throw (TypeError "invite.roles.map is not a function")
        | None =>
            throw (TypeError
                     "Cannot read properties of undefined (reading 'map')")
        end
    end.

Definition fetchOrganizationUsers (organizationID : string)
    : M (list OrganizationUserWithUser) :=
  organizationUsers <- prisma_read
    (fun db =>
       map (fun m =>
              {| membership := m;
                 include_user :=
                   (fun u => {| select_email := User.email u;
                                select_profileData := User.profileData u |})
                     <$> Prisma.user_by_id (OrganizationUser.userID m) db |})
           (Prisma.organizationUser_findMany
              (fun m => String.eqb (OrganizationUser.organizationID m)
                                   organizationID)
              db)) ;;
  ret organizationUsers.

Definition createOrganization (entropy : nat -> nat)
    (new_organizationID new_organizationUserID : string)
    (adminID name : string) : M bool :=
  let identifier := name +:+ "-" +:+ toString_hex (randomBytes 6 entropy) in
  prisma_write
    (Prisma.organizationUser_create_with_organization
       {| Organization.id := new_organizationID;
          Organization.name := name;
          Organization.identifier := identifier |}
       {| OrganizationUser.id := new_organizationUserID;
          OrganizationUser.userID := adminID;
          OrganizationUser.organizationID := new_organizationID;
          OrganizationUser.isAdmin := true |}) ;;
  ret true.

Definition member_of (userID organizationID : string)
    (m : OrganizationUser.t) : bool :=
  String.eqb (OrganizationUser.userID m) userID
  && String.eqb (OrganizationUser.organizationID m) organizationID.

Definition assignRole (userID organizationID roleName : string) : M bool :=
  user <- prisma_read
    (Prisma.organizationUser_findFirst (member_of userID organizationID)) ;;
  match user with
  | None => throw (Error "user not present in organization")
  | Some user =>
      prisma_write
        (Prisma.role_create
           {| Role.name := roleName;
              Role.organizationUserID := OrganizationUser.id user |}) ;;
      ret true
  end.

Definition deleteRole (userID organizationID roleName : string) : M bool :=
  user <- prisma_read
    (Prisma.organizationUser_findFirst (member_of userID organizationID)) ;;
  match user with
  | None => throw (Error "user not present in organization")
  | Some user =>
      prisma_write
        (Prisma.role_deleteMany roleName (OrganizationUser.id user)) ;;
      ret true
  end.

Definition admin_of (organizationID : string) (m : OrganizationUser.t) : bool :=
  OrganizationUser.isAdmin m
  && String.eqb (OrganizationUser.organizationID m) organizationID.

Definition leaveOrganization (userID organizationID : string) : M bool :=
  user <- prisma_read
    (Prisma.organizationUser_findFirst (member_of userID organizationID)) ;;
  match user with
  | None => throw (Error "you are not part of this organization")
  | Some user =>
      (if OrganizationUser.isAdmin user
       then
         admins <- prisma_read
           (Prisma.organizationUser_findMany (admin_of organizationID)) ;;
         if length admins =? 1
         then throw (Error "admin cannot leave organization")
         else ret tt
       else ret tt) ;;
      prisma_write (Prisma.organizationUser_delete (OrganizationUser.id user)) ;;
      ret true
  end.

Definition deleteOrganization (organizationID : string) : M bool :=
  prisma_write (Prisma.organization_delete organizationID) ;;
  ret true.

End OrganizationService.

(** ** Definitions used by the statements *)

Definition code_alphabet : string := "0123456789ABCDEFGHIJKLMNOPQRSTUVWXYZ".

(** A draw is rejected when it would put ['0'] in front. *)
Definition rejected (r : nat) : bool := r mod 36 =? 0.

Fixpoint skip_rejected (entropy : list nat) : list nat :=
  match entropy with
  | [] => []
  | r :: entropy' => if rejected r then skip_rejected entropy' else entropy
  end.

Definition is_hex (c : ascii) : bool :=
  is_digit c || ((97 <=? nat_of_ascii c) && (nat_of_ascii c <=? 102)).

Definition all_hex (s : string) : bool := forallb is_hex (chars s).

(** The text held for an invitation, if any. *)
Definition stored_invite (organizationID email : string) (w : World)
    : option Text :=
  Redis.value <$> redis w !! invite_key organizationID email.

(** The three checks of line 89 pass. *)
Definition verifies (invite : json) (code : string) : bool :=
  truthy invite && truthy_prop (prop invite "code")
  && strict_eq_string (prop invite "code") code.

Definition unable_to_verify : JsError := Error "unable to verify code".

Definition null_user_id : JsError :=
  TypeError "Cannot read properties of null (reading 'id')".

(** The world a successful [inviteUser] leaves. *)
Definition invited (keys : Keys) (o : Organization.t)
    (email name organizationID : string) (newUser : bool) (code : string)
    (roles : list string) (w : World) : World :=
  {| prisma := prisma w;
     redis :=
       <[invite_key organizationID email :=
           {| Redis.value := JsonText (invite_payload code name newUser roles);
              Redis.EX := CODE_EXPIRY keys |}]> (redis w);
     mailer :=
       mailer w
       ++ [{| Mailer.to := email;
              Mailer.subject := invite_subject o;
              Mailer.html :=
                invite_html keys o email name organizationID newUser code |}] |}.

(** The admin memberships of an organization, as line 226 reads them. *)
Definition admins (organizationID : string) (db : Prisma.t)
    : list OrganizationUser.t :=
  Prisma.organizationUser_findMany (admin_of organizationID) db.

(** A user holds at most one membership per organization. *)
Definition one_membership_per_user (db : Prisma.t) : Prop :=
  forall m1 m2,
    In m1 (Prisma.organizationUser db) ->
    In m2 (Prisma.organizationUser db) ->
    OrganizationUser.userID m1 = OrganizationUser.userID m2 ->
    OrganizationUser.organizationID m1 = OrganizationUser.organizationID m2 ->
    m1 = m2.

(** Primary key of the membership table. *)
Definition unique_membership_ids (db : Prisma.t) : Prop :=
  List.NoDup (map OrganizationUser.id (Prisma.organizationUser db)).

(** What [leaveOrganization] leaves behind when it deletes [m]. *)
Definition without (m : OrganizationUser.t) (w : World) : World :=
  {| prisma :=
       {| Prisma.user := Prisma.user (prisma w);
          Prisma.organization := Prisma.organization (prisma w);
          Prisma.organizationUser :=
            List.filter
              (fun m' => negb (String.eqb (OrganizationUser.id m')
                                          (OrganizationUser.id m)))
              (Prisma.organizationUser (prisma w));
          Prisma.role :=
            List.filter
              (fun r => negb (String.eqb (Role.organizationUserID r)
                                         (OrganizationUser.id m)))
              (Prisma.role (prisma w)) |};
     redis := redis w;
     mailer := mailer w |}.

(** Two users that differ at most in their credential data. *)
Definition same_public (u1 u2 : User.t) : Prop :=
  User.id u1 = User.id u2
  /\ User.email u1 = User.email u2
  /\ User.profileData u1 = User.profileData u2.

(** ** Sample configuration and stores *)

Definition keys0 : Keys :=
  {| REDIRECT_URL := "https://app.test"; ORG_NAME := "Zrauth";
     CODE_EXPIRY := 600 |}.

(** A stand-in digest, enough to run the handlers on sample data. *)
Definition digest0 (data : string) (rounds : nat) (salt : string) : string :=
  "$2b$" +:+ salt +:+ "$" +:+ data.

Definition ann : User.t :=
  {| User.id := "u1"; User.email := "ann@x.io";
     User.authData := JObj [("password", JStr "$2b$s$secret")];
     User.profileData := JObj [("firstname", JStr "Ann")] |}.

Definition bob : User.t :=
  {| User.id := "u2"; User.email := "bob@x.io";
     User.authData := JObj [("password", JStr "$2b$s$hunter2")];
     User.profileData := JObj [("firstname", JStr "Bob")] |}.

Definition acme : Organization.t :=
  {| Organization.id := "org1"; Organization.name := "Acme";
     Organization.identifier := "Acme-000000000000" |}.

Definition ann_in_acme : OrganizationUser.t :=
  {| OrganizationUser.id := "m1"; OrganizationUser.userID := "u1";
     OrganizationUser.organizationID := "org1";
     OrganizationUser.isAdmin := true |}.

Definition bob_in_acme : OrganizationUser.t :=
  {| OrganizationUser.id := "m2"; OrganizationUser.userID := "u2";
     OrganizationUser.organizationID := "org1";
     OrganizationUser.isAdmin := true |}.

(** Acme with Ann as its only member and admin. *)
Definition db0 : Prisma.t :=
  {| Prisma.user := [ann];
     Prisma.organization := [acme];
     Prisma.organizationUser := [ann_in_acme];
     Prisma.role := [] |}.

Definition w0 : World := {| prisma := db0; redis := ∅; mailer := [] |}.

(** Two admins in one organization, one role label each. *)
Definition w_two_admins : World :=
  {| prisma :=
       {| Prisma.user := [ann; bob];
          Prisma.organization := [acme];
          Prisma.organizationUser := [ann_in_acme; bob_in_acme];
          Prisma.role :=
            [{| Role.name := "owner"; Role.organizationUserID := "m1" |};
             {| Role.name := "dev"; Role.organizationUserID := "m2" |}] |};
     redis := ∅;
     mailer := [] |}.

(** [w_two_admins] with every credential replaced. *)
Definition w_two_admins_rehashed : World :=
  {| prisma :=
       {| Prisma.user :=
            map (fun u => {| User.id := User.id u;
                             User.email := User.email u;
                             User.authData := JNull;
                             User.profileData := User.profileData u |})
                (Prisma.user (prisma w_two_admins));
          Prisma.organization := Prisma.organization (prisma w_two_admins);
          Prisma.organizationUser :=
            Prisma.organizationUser (prisma w_two_admins);
          Prisma.role := Prisma.role (prisma w_two_admins) |};
     redis := ∅;
     mailer := [] |}.

(** [w0] after Bob, who has no account, was invited to Acme. *)
Definition w_bob_invited : World :=
  snd (inviteUser keys0 [10; 11; 12; 1; 2; 3] "bob@x.io" "Bob" "org1" ["dev"] w0).

(** A key-value store whose text for Bob's invitation is not JSON. *)
Definition w_garbled : World :=
  {| prisma := db0;
     redis := {[ invite_key "org1" "bob@x.io" :=
                   {| Redis.value := NotJson "{code:"; Redis.EX := 600 |} ]};
     mailer := [] |}.

(** A stored invitation whose code is the empty string. *)
Definition w_empty_code : World :=
  {| prisma := db0;
     redis := {[ invite_key "org1" "bob@x.io" :=
                   {| Redis.value :=
                        JsonText (invite_payload EmptyString "Bob" true []);
                      Redis.EX := 600 |} ]};
     mailer := [] |}.

(** An invitation issued to an existing user whose row is gone. *)
Definition w_stale : World :=
  {| prisma := db0;
     redis := {[ invite_key "org1" "carl@x.io" :=
                   {| Redis.value :=
                        JsonText (invite_payload "ABC123" "Carl" false ["dev"]);
                      Redis.EX := 600 |} ]};
     mailer := [] |}.

(** ** Further definitions used by the statements *)

(** The string holds no ['-']. *)
Definition no_dash (s : string) : bool :=
  forallb (fun c => negb (Ascii.eqb c "-"%char)) (chars s).

(** The user row of line 103. *)
Definition invited_user (digest : string -> nat -> string -> string)
    (salt new_userID email : string) (password : string) (invite : json)
    : User.t :=
  {| User.id := new_userID;
     User.email := email;
     User.authData := JObj [("password", JStr (digest password 10 salt))];
     User.profileData :=
       JObj (object [("firstname", prop invite "name");
                     ("lastname", Some (JStr EmptyString));
                     ("status", Some (JStr "verified"))]) |}.

Definition with_prisma (db : Prisma.t) (w : World) : World :=
  {| prisma := db; redis := redis w; mailer := mailer w |}.

(** Lines 118 to 133: create the membership for [user] with the roles of
    the invitation, then delete the invitation. *)
Definition join_organization (invite : json)
    (new_organizationUserID email organizationID : string)
    (user : option User.t) : M bool :=
  fun w =>
    match user with
    | None => (Thrown null_user_id, w)
    | Some user =>
        match prop invite "roles" with
        | Some (JArr items) =>
            match role_names items with
            | Some roles =>
                match Prisma.organizationUser_create
                        {| OrganizationUser.id := new_organizationUserID;
                           OrganizationUser.userID := User.id user;
                           OrganizationUser.organizationID := organizationID;
                           OrganizationUser.isAdmin := false |}
                        roles (prisma w) with
                | (Returned _, db) =>
                    (Returned true,
                     {| prisma := db;
                        redis :=
                          delete (invite_key organizationID email) (redis w);
                        mailer := mailer w |})
                | (Thrown e, db) => (Thrown e, with_prisma db w)
                | (Unfinished, db) => (Unfinished, with_prisma db w)
                end
            | None =>
                (Thrown (PrismaClientValidationError
                           "Argument name: expected String"), w)
            end
        | Some _ =>
            (Thrown (TypeError "invite.roles.map is not a function"), w)
        | None =>
            (Thrown (TypeError
                       "Cannot read properties of undefined (reading 'map')"),
             w)
        end
    end.

(** An invitation of a new user to an organization that is gone. *)
Definition w_orphan_invite : World :=
  {| prisma := db0;
     redis := {[ invite_key "org9" "bob@x.io" :=
                   {| Redis.value :=
                        JsonText (invite_payload "ABC123" "Bob" true ["dev"]);
                      Redis.EX := 600 |} ]};
     mailer := [] |}.

(** The role label has this name and this owner. *)
Definition labelled (name organizationUserID : string) (r : Role.t) : bool :=
  String.eqb (Role.name r) name
  && String.eqb (Role.organizationUserID r) organizationUserID.

(** The world with another table of role labels. *)
Definition with_roles (roles : list Role.t) (w : World) : World :=
  {| prisma :=
       {| Prisma.user := Prisma.user (prisma w);
          Prisma.organization := Prisma.organization (prisma w);
          Prisma.organizationUser := Prisma.organizationUser (prisma w);
          Prisma.role := roles |};
     redis := redis w;
     mailer := mailer w |}.

(** What [deleteOrganization] leaves behind. *)
Definition without_organization (id : string) (w : World) : World :=
  match Prisma.organization_delete id (prisma w) with
  | (_, db) => with_prisma db w
  end.

(** Carl has an account but no membership. *)
Definition carl : User.t :=
  {| User.id := "u3"; User.email := "carl@x.io";
     User.authData := JObj [("password", JStr "$2b$s$carl")];
     User.profileData := JObj [("firstname", JStr "Carl")] |}.

(** Carl, an existing user, holds an invitation to Acme. *)
Definition w_carl_invited : World :=
  {| prisma :=
       {| Prisma.user := [ann; bob; carl];
          Prisma.organization := [acme];
          Prisma.organizationUser := [ann_in_acme; bob_in_acme];
          Prisma.role :=
            [{| Role.name := "owner"; Role.organizationUserID := "m1" |};
             {| Role.name := "dev"; Role.organizationUserID := "m2" |}] |};
     redis := {[ invite_key "org1" "carl@x.io" :=
                   {| Redis.value :=
                        JsonText (invite_payload "ABC123" "Carl" false ["dev"]);
                      Redis.EX := 600 |} ]};
     mailer := [] |}.

Definition dan_in_acme : OrganizationUser.t :=
  {| OrganizationUser.id := "m4"; OrganizationUser.userID := "u4";
     OrganizationUser.organizationID := "org1";
     OrganizationUser.isAdmin := false |}.

(** Acme with its admin Ann and a plain member holding one label. *)
Definition w_with_member : World :=
  {| prisma :=
       {| Prisma.user :=
            [ann;
             {| User.id := "u4"; User.email := "dan@x.io";
                User.authData := JNull; User.profileData := JNull |}];
          Prisma.organization := [acme];
          Prisma.organizationUser := [ann_in_acme; dan_in_acme];
          Prisma.role :=
            [{| Role.name := "owner"; Role.organizationUserID := "m1" |};
             {| Role.name := "dev"; Role.organizationUserID := "m4" |}] |};
     redis := ∅;
     mailer := [] |}.

(** The role labels a membership gets from a list of names. *)
Definition labels (organizationUserID : string) (roles : list string)
    : list Role.t :=
  map (fun r => {| Role.name := r;
                   Role.organizationUserID := organizationUserID |})
      roles.

(** Every membership points to a user of the table. *)
Definition memberships_have_users (db : Prisma.t) : Prop :=
  forall m, In m (Prisma.organizationUser db) ->
            Prisma.user_by_id (OrganizationUser.userID m) db <> None.

(** Every membership points to an organization of the table. *)
Definition memberships_have_organizations (db : Prisma.t) : Prop :=
  forall m, In m (Prisma.organizationUser db) ->
            Prisma.organization_by_id (OrganizationUser.organizationID m) db
            <> None.

(** ** The service as a whole *)

(** A call of one of the nine methods of [OrganizationService], with the
    values the environment supplies for it. *)
Inductive Call : Type :=
| AddUser (new_userID new_organizationUserID : string)
    (email name password organizationID : string) (roles : list string)
| InviteUser (entropy : list nat)
    (email name organizationID : string) (roles : list string)
| AcceptInvitation (salt new_userID new_organizationUserID : string)
    (email organizationID code : string) (password : option string)
| FetchOrganizationUsers (organizationID : string)
| CreateOrganization (entropy : nat -> nat)
    (new_organizationID new_organizationUserID : string)
    (adminID name : string)
| AssignRole (userID organizationID roleName : string)
| DeleteRole (userID organizationID roleName : string)
| LeaveOrganization (userID organizationID : string)
| DeleteOrganization (organizationID : string).

(** The world a call leaves, whether it returned or threw. *)
Definition after (keys : Keys) (digest : string -> nat -> string -> string)
    (c : Call) (w : World) : World :=
  match c with
  | AddUser uid ouid email name password org roles =>
      snd (addUser uid ouid email name password org roles w)
  | InviteUser entropy email name org roles =>
      snd (inviteUser keys entropy email name org roles w)
  | AcceptInvitation salt uid ouid email org code password =>
      snd (acceptInvitation digest salt uid ouid email org code password w)
  | FetchOrganizationUsers org => snd (fetchOrganizationUsers org w)
  | CreateOrganization entropy oid ouid adminID name =>
      snd (createOrganization entropy oid ouid adminID name w)
  | AssignRole userID org roleName => snd (assignRole userID org roleName w)
  | DeleteRole userID org roleName => snd (deleteRole userID org roleName w)
  | LeaveOrganization userID org => snd (leaveOrganization userID org w)
  | DeleteOrganization org => snd (deleteOrganization org w)
  end.

(** A sequence of calls, one after the other. *)
Definition run_calls (keys : Keys)
    (digest : string -> nat -> string -> string)
    (calls : list Call) (w : World) : World :=
  fold_left (fun w c => after keys digest c w) calls w.

(** Every role label points to a membership of the table. *)
Definition roles_have_memberships (db : Prisma.t) : Prop :=
  forall r, In r (Prisma.role db) ->
            Prisma.organizationUser_by_id (Role.organizationUserID r) db <> None.

(** Keys are unique and references resolve. *)
Record well_formed (db : Prisma.t) : Prop := {
  wf_user_ids : List.NoDup (map User.id (Prisma.user db));
  wf_emails : List.NoDup (map User.email (Prisma.user db));
  wf_organization_ids :
    List.NoDup (map Organization.id (Prisma.organization db));
  wf_identifiers :
    List.NoDup (map Organization.identifier (Prisma.organization db));
  wf_membership_ids : unique_membership_ids db;
  wf_membership_users : memberships_have_users db;
  wf_membership_organizations : memberships_have_organizations db;
  wf_role_owners : roles_have_memberships db
}.

(** Every organization of the table has exactly one admin membership. *)
Definition one_admin_each (db : Prisma.t) : Prop :=
  forall o, In o (Prisma.organization db) ->
            length (admins (Organization.id o) db) = 1.

(** * Properties *)

(** ** C1: the invitation code *)

Lemma allowsChars_inviteUser : otp.allowsChars inviteUser_options = code_alphabet.
Proof. reflexivity. Qed.

Lemma code_alphabet_get (i : nat) :
  i < 36 ->
  exists c, String.get i code_alphabet = Some c
            /\ (is_digit c || is_upper c) = true
            /\ (Ascii.eqb c "0"%char = (i =? 0)).
Proof.
  intros Hi.
  do 36 (destruct i as [|i]; [eexists; repeat split; reflexivity|]).
  lia.
Qed.

Lemma length_snoc (s : string) (c : ascii) :
  String.length (s +:+ char_string c) = S (String.length s).
Proof. induction s as [|a s IH]; simpl; [reflexivity | now rewrite IH]. Qed.

Lemma all_digits_or_upper_snoc (s : string) (c : ascii) :
  all_digits_or_upper (s +:+ char_string c)
  = all_digits_or_upper s && (is_digit c || is_upper c).
Proof.
  unfold all_digits_or_upper, chars.
  induction s as [|a s IH]; simpl.
  - now rewrite andb_true_r.
  - rewrite IH. now rewrite andb_assoc.
Qed.

Lemma generate_loop_done (o : otp.Options) (entropy : list nat) (password : string) :
  String.length password = 6 ->
  otp.generate_loop 6 o entropy password = Returned password.
Proof. intros H. destruct entropy; simpl; rewrite H; reflexivity. Qed.

Lemma generate_loop_step (r : nat) (entropy : list nat) (password : string) :
  String.length password < 6 ->
  otp.generate_loop 6 inviteUser_options (r :: entropy) password
  = match String.get (r mod 36) code_alphabet with
    | Some c =>
        if (String.length password =? 0) && Ascii.eqb c "0"%char
        then otp.generate_loop 6 inviteUser_options entropy password
        else otp.generate_loop 6 inviteUser_options entropy
               (password +:+ char_string c)
    | None =>
        otp.generate_loop 6 inviteUser_options entropy (password +:+ "undefined")
    end.
Proof.
  intros H. cbn [otp.generate_loop].
  apply Nat.ltb_lt in H. rewrite H.
  rewrite allowsChars_inviteUser. cbn [otp.digits inviteUser_options].
  unfold otp.randomInt. change (String.length code_alphabet) with 36.
  change (36 =? 0) with false. cbv iota.
  destruct (String.get (r mod 36) code_alphabet); [|reflexivity].
  now rewrite andb_true_r.
Qed.

(** Once the first character is in place every draw adds one character. *)
Lemma generate_loop_tail (entropy : list nat) (password : string) :
  0 < String.length password <= 6 ->
  all_digits_or_upper password = true ->
  match otp.generate_loop 6 inviteUser_options entropy password with
  | Returned code =>
      String.length code = 6 /\ all_digits_or_upper code = true
      /\ 6 <= String.length password + length entropy
  | Thrown _ => False
  | Unfinished => String.length password + length entropy < 6
  end.
Proof.
  revert password. induction entropy as [|r entropy IH]; intros password Hlen Hok.
  - destruct (Nat.eq_dec (String.length password) 6) as [E|E].
    + rewrite generate_loop_done by exact E. simpl. repeat split; [exact E|exact Hok|lia].
    + simpl. assert (L : (String.length password <? 6) = true) by (apply Nat.ltb_lt; lia).
      rewrite L. simpl. lia.
  - destruct (Nat.eq_dec (String.length password) 6) as [E|E].
    + rewrite generate_loop_done by exact E. repeat split; [exact E|exact Hok|simpl; lia].
    + rewrite generate_loop_step by lia.
      destruct (code_alphabet_get (r mod 36)) as (c & Hc & Hcok & _).
      { apply Nat.mod_upper_bound. lia. }
      rewrite Hc.
      assert (Z : (String.length password =? 0) = false) by (apply Nat.eqb_neq; lia).
      rewrite Z. cbn [andb].
      specialize (IH (password +:+ char_string c)).
      rewrite length_snoc, all_digits_or_upper_snoc, Hok, Hcok in IH.
      specialize (IH ltac:(lia) eq_refl).
      destruct (otp.generate_loop 6 inviteUser_options entropy
                  (password +:+ char_string c)); simpl; [|exact IH|lia].
      destruct IH as (? & ? & ?). repeat split; [assumption|assumption|lia].
Qed.

(** The outcomes of the call of line 71, by the entropy it is given. *)
Lemma inviteUser_code_outcome (entropy : list nat) :
  match inviteUser_code entropy with
  | Returned code =>
      String.length code = 6 /\ all_digits_or_upper code = true
      /\ 6 <= length (skip_rejected entropy)
  | Thrown _ => False
  | Unfinished => length (skip_rejected entropy) < 6
  end.
Proof.
  unfold inviteUser_code, otp.generate. cbn [Nat.eqb].
  induction entropy as [|r entropy IH].
  - simpl. lia.
  - rewrite generate_loop_step by (simpl; lia).
    destruct (code_alphabet_get (r mod 36)) as (c & Hc & Hcok & Hzero).
    { apply Nat.mod_upper_bound. lia. }
    rewrite Hc, Hzero. cbn [String.length Nat.eqb andb skip_rejected].
    unfold rejected. destruct (r mod 36 =? 0).
    + exact IH.
    + pose proof (generate_loop_tail entropy (EmptyString +:+ char_string c)) as T.
      rewrite all_digits_or_upper_snoc, Hcok in T.
      specialize (T ltac:(simpl; lia) eq_refl).
      destruct (otp.generate_loop 6 inviteUser_options entropy
                  (EmptyString +:+ char_string c)); simpl in *; [|exact T|lia].
      destruct T as (? & ? & ?). repeat split; [assumption|assumption|lia].
Qed.

(** C1 (amended): the code generated at line 71 has exactly 6 characters,
    each a decimal digit or an upper-case letter (no lower-case letter, no
    symbol); the call never throws, and it returns as soon as 6 draws
    remain after the rejected leading ones. *)
Theorem inviteUser_code_shape (entropy : list nat) :
  (forall code,
      inviteUser_code entropy = Returned code ->
      String.length code = 6 /\ all_digits_or_upper code = true)
  /\ (forall e, inviteUser_code entropy <> Thrown e)
  /\ (6 <= length (skip_rejected entropy) ->
      exists code, inviteUser_code entropy = Returned code).
Proof.
  pose proof (inviteUser_code_outcome entropy) as H.
  destruct (inviteUser_code entropy) as [code|e|].
  - destruct H as (Hlen & Hok & _). split; [|split].
    + intros code' E. injection E as <-. now split.
    + discriminate.
    + intros _. now exists code.
  - contradiction.
  - split; [discriminate|]. split; [discriminate|]. lia.
Qed.

Lemma inviteUser_code_shape_witness :
  exists code,
    inviteUser_code [0; 36; 10; 11; 12; 1; 2; 3] = Returned code
    /\ String.length code = 6 /\ all_digits_or_upper code = true.
Proof.
  destruct (inviteUser_code_shape [0; 36; 10; 11; 12; 1; 2; 3])
    as (Hshape & _ & Hreturns).
  destruct Hreturns as [code Hcode]; [vm_compute; lia|].
  exists code. split; [exact Hcode|]. now apply Hshape.
Defined.

(** C1 as stated fails: with upper-case letters enabled the code of these
    draws holds letters. *)
Lemma inviteUser_code_not_numeric :
  inviteUser_code [10; 11; 12; 1; 2; 3] = Returned "ABC123"
  /\ String.length "ABC123" = 6
  /\ all_digits "ABC123" = false.
Proof. repeat split. Qed.

(** ** Verification of the invitation code (C3, C4, C10) *)

Ltac run :=
  unfold bcrypt_hash, bind, ret, throw, settle, prisma_read, prisma_write,
    redis_get, redis_set, redis_del, sendEmail in *;
  cbn [fst snd prisma redis mailer] in *.

Lemma verifies_false (invite : json) (code : string) :
  negb (truthy invite) || negb (truthy_prop (prop invite "code"))
  || negb (strict_eq_string (prop invite "code") code)
  = negb (verifies invite code).
Proof.
  unfold verifies.
  destruct (truthy invite), (truthy_prop (prop invite "code")),
    (strict_eq_string (prop invite "code") code); reflexivity.
Qed.

Lemma acceptInvitation_rejects (digest : string -> nat -> string -> string)
    (salt uid ouid email org code : string) (password : option string)
    (w : World) (invite : json) :
  JSON_parse (stored_invite org email w) = Returned invite ->
  verifies invite code = false ->
  acceptInvitation digest salt uid ouid email org code password w
  = (Thrown unable_to_verify, w).
Proof.
  intros Hparse Hv. unfold acceptInvitation. run.
  fold (stored_invite org email w). rewrite Hparse.
  rewrite verifies_false, Hv. reflexivity.
Qed.

(** C3: when the supplied code differs from the code stored in the pending
    invitation, [acceptInvitation] throws the verification error and both
    stores (and the outbox) are exactly as before: no user, membership or
    role label is created and the invitation is not deleted. *)
Theorem acceptInvitation_code_mismatch
    (digest : string -> nat -> string -> string)
    (salt uid ouid email org code : string) (password : option string)
    (w : World) (entry : Redis.Entry) (invite stored : json) :
  redis w !! invite_key org email = Some entry ->
  Redis.value entry = JsonText invite ->
  prop invite "code" = Some stored ->
  stored <> JStr code ->
  acceptInvitation digest salt uid ouid email org code password w
  = (Thrown unable_to_verify, w).
Proof.
  intros Hkey Hval Hcode Hne.
  apply acceptInvitation_rejects with (invite := invite).
  - unfold stored_invite. rewrite Hkey. simpl. rewrite Hval. reflexivity.
  - unfold verifies. rewrite Hcode.
    assert (E : strict_eq_string (Some stored) code = false).
    { destruct stored; try reflexivity. simpl.
      apply String.eqb_neq. congruence. }
    rewrite E. now rewrite andb_false_r.
Qed.

Lemma acceptInvitation_code_mismatch_witness :
  acceptInvitation digest0 "salt" "u2" "m2" "bob@x.io" "org1" "000000"
    (Some "hunter2") w_bob_invited
  = (Thrown unable_to_verify, w_bob_invited).
Proof.
  apply (acceptInvitation_code_mismatch digest0 "salt" "u2" "m2" "bob@x.io"
           "org1" "000000" (Some "hunter2") w_bob_invited
           {| Redis.value := JsonText (invite_payload "ABC123" "Bob" true ["dev"]);
              Redis.EX := 600 |}
           (invite_payload "ABC123" "Bob" true ["dev"]) (JStr "ABC123")).
  - vm_compute. reflexivity.
  - reflexivity.
  - reflexivity.
  - discriminate.
Defined.

Ltac case_split :=
  repeat (match goal with
          | |- context [match ?x with _ => _ end] =>
              is_var x; destruct x
          | |- context [match ?x with _ => _ end] =>
              lazymatch x with
              | context [match _ with _ => _ end] => fail
              | _ => destruct x eqn:?
              end
          end; cbn [fst snd prisma redis mailer negb] in *; try discriminate).

(** After the checks pass, no path of [acceptInvitation] ends in the
    verification error. *)
Lemma acceptInvitation_verified_outcome
    (digest : string -> nat -> string -> string)
    (salt uid ouid email org code : string) (password : option string)
    (w : World) (invite : json) :
  JSON_parse (stored_invite org email w) = Returned invite ->
  verifies invite code = true ->
  fst (acceptInvitation digest salt uid ouid email org code password w)
  <> Thrown unable_to_verify.
Proof.
  intros Hparse Hv. unfold acceptInvitation. run.
  fold (stored_invite org email w). rewrite Hparse.
  rewrite verifies_false, Hv. cbn [negb].
  unfold Prisma.user_create, Prisma.organizationUser_create, unable_to_verify.
  destruct (truthy_prop (prop invite "newuser")); cbn [negb].
  all: case_split.
  all: try (intro; discriminate).
Qed.

Lemma acceptInvitation_unparseable
    (digest : string -> nat -> string -> string)
    (salt uid ouid email org code : string) (password : option string)
    (w : World) (s : string) :
  stored_invite org email w = Some (NotJson s) ->
  acceptInvitation digest salt uid ouid email org code password w
  = (Thrown (SyntaxError "Unexpected token in JSON"), w).
Proof.
  intros H. unfold acceptInvitation. run.
  fold (stored_invite org email w). rewrite H. reflexivity.
Qed.

(** C4 (amended): [acceptInvitation] throws "unable to verify code" exactly
    when the pending invitation is absent or its stored value parses and
    fails one of the three checks of line 89 (the value is falsy, its code
    is missing or falsy, or its code differs from the supplied one). On an
    unparseable value the [SyntaxError] of [JSON.parse] is thrown instead
    and nothing is changed. *)
Theorem acceptInvitation_unable_to_verify_iff
    (digest : string -> nat -> string -> string)
    (salt uid ouid email org code : string) (password : option string)
    (w : World) :
  (fst (acceptInvitation digest salt uid ouid email org code password w)
   = Thrown unable_to_verify
   <-> match stored_invite org email w with
       | None => True
       | Some (JsonText invite) => verifies invite code = false
       | Some (NotJson _) => False
       end)
  /\ (forall s, stored_invite org email w = Some (NotJson s) ->
      acceptInvitation digest salt uid ouid email org code password w
      = (Thrown (SyntaxError "Unexpected token in JSON"), w)).
Proof.
  split; [|intros s; apply acceptInvitation_unparseable].
  destruct (stored_invite org email w) as [[invite|s]|] eqn:Hs.
  - destruct (verifies invite code) eqn:Hv.
    + split; [|discriminate].
      intros H. exfalso.
      eapply acceptInvitation_verified_outcome; [|exact Hv|exact H].
      rewrite Hs. reflexivity.
    + split; [reflexivity|]. intros _.
      erewrite acceptInvitation_rejects; [reflexivity| |exact Hv].
      rewrite Hs. reflexivity.
  - rewrite (acceptInvitation_unparseable _ _ _ _ _ _ _ _ _ _ Hs).
    split; [discriminate|contradiction].
  - split; [trivial|]. intros _.
    erewrite acceptInvitation_rejects with (invite := JNull);
      [reflexivity| |reflexivity].
    rewrite Hs. reflexivity.
Qed.

(** C4 as stated fails: an unparseable stored value ends in the
    [SyntaxError] of [JSON.parse], not in the verification error; and a
    stored empty code fails verification although it is present,
    parseable and equal to the supplied code. *)
Lemma acceptInvitation_unparseable_other_error :
  stored_invite "org1" "bob@x.io" w_garbled = Some (NotJson "{code:")
  /\ fst (acceptInvitation digest0 "salt" "u2" "m2" "bob@x.io" "org1" "ABC123"
            (Some "hunter2") w_garbled)
     = Thrown (SyntaxError "Unexpected token in JSON")
  /\ fst (acceptInvitation digest0 "salt" "u2" "m2" "bob@x.io" "org1" "ABC123"
            (Some "hunter2") w_garbled)
     <> Thrown unable_to_verify
  /\ prop (invite_payload EmptyString "Bob" true []) "code"
     = Some (JStr EmptyString)
  /\ fst (acceptInvitation digest0 "salt" "u2" "m2" "bob@x.io" "org1"
            EmptyString (Some "hunter2") w_empty_code)
     = Thrown unable_to_verify.
Proof.
  split; [vm_compute; reflexivity|].
  split; [vm_compute; reflexivity|].
  split; [vm_compute; discriminate|].
  split; vm_compute; reflexivity.
Qed.

Lemma acceptInvitation_unable_to_verify_iff_witness :
  fst (acceptInvitation digest0 "salt" "u2" "m2" "bob@x.io" "org1" "000000"
         (Some "hunter2") w_bob_invited)
  = Thrown unable_to_verify
  /\ acceptInvitation digest0 "salt" "u2" "m2" "bob@x.io" "org1" "ABC123"
       (Some "hunter2") w_garbled
     = (Thrown (SyntaxError "Unexpected token in JSON"), w_garbled).
Proof.
  split.
  - apply (proj1 (acceptInvitation_unable_to_verify_iff digest0 "salt" "u2" "m2"
                    "bob@x.io" "org1" "000000" (Some "hunter2") w_bob_invited)).
    vm_compute. reflexivity.
  - apply (proj2 (acceptInvitation_unable_to_verify_iff digest0 "salt" "u2" "m2"
                    "bob@x.io" "org1" "ABC123" (Some "hunter2") w_garbled)
             "{code:").
    vm_compute. reflexivity.
Defined.

Lemma acceptInvitation_null_user
    (digest : string -> nat -> string -> string)
    (salt uid ouid email org code : string) (password : option string)
    (w : World) (invite : json) :
  stored_invite org email w = Some (JsonText invite) ->
  verifies invite code = true ->
  truthy_prop (prop invite "newuser") = false ->
  Prisma.user_by_email email (prisma w) = None ->
  acceptInvitation digest salt uid ouid email org code password w
  = (Thrown null_user_id, w).
Proof.
  intros Hs Hv Hn Hu. unfold acceptInvitation. run.
  fold (stored_invite org email w). rewrite Hs. cbn [JSON_parse].
  rewrite verifies_false, Hv, Hn. cbn [negb]. rewrite Hu. reflexivity.
Qed.

(** C10: [acceptInvitation] ends in the null dereference at [user.id]
    exactly when the stored invitation passes the checks, its [newuser]
    flag is falsy and no user has the given email; the stores are then
    unchanged. With the invited user still present that branch is not
    reached. *)
Theorem acceptInvitation_null_user_iff
    (digest : string -> nat -> string -> string)
    (salt uid ouid email org code : string) (password : option string)
    (w : World) :
  (fst (acceptInvitation digest salt uid ouid email org code password w)
   = Thrown null_user_id
   <-> exists invite,
         stored_invite org email w = Some (JsonText invite)
         /\ verifies invite code = true
         /\ truthy_prop (prop invite "newuser") = false
         /\ Prisma.user_by_email email (prisma w) = None)
  /\ (fst (acceptInvitation digest salt uid ouid email org code password w)
      = Thrown null_user_id ->
      snd (acceptInvitation digest salt uid ouid email org code password w) = w).
Proof.
  assert (Hif : (exists invite,
         stored_invite org email w = Some (JsonText invite)
         /\ verifies invite code = true
         /\ truthy_prop (prop invite "newuser") = false
         /\ Prisma.user_by_email email (prisma w) = None) ->
      acceptInvitation digest salt uid ouid email org code password w
      = (Thrown null_user_id, w)).
  { intros (invite & Hs & Hv & Hn & Hu).
    now apply acceptInvitation_null_user with (invite := invite). }
  assert (Honly : fst (acceptInvitation digest salt uid ouid email org code password w)
   = Thrown null_user_id -> exists invite,
         stored_invite org email w = Some (JsonText invite)
         /\ verifies invite code = true
         /\ truthy_prop (prop invite "newuser") = false
         /\ Prisma.user_by_email email (prisma w) = None).
  { destruct (stored_invite org email w) as [[invite|s]|] eqn:Hs.
    - destruct (verifies invite code) eqn:Hv.
      + destruct (truthy_prop (prop invite "newuser")) eqn:Hn.
        * intros H. exfalso. revert H.
          unfold acceptInvitation. run.
          fold (stored_invite org email w). rewrite Hs. cbn [JSON_parse].
          rewrite verifies_false, Hv, Hn. cbn [negb].
          unfold Prisma.user_create, Prisma.organizationUser_create, null_user_id.
          case_split. all: try (intro; discriminate).
        * destruct (Prisma.user_by_email email (prisma w)) eqn:Hu.
          -- intros H. exfalso. revert H.
             unfold acceptInvitation. run.
             fold (stored_invite org email w). rewrite Hs. cbn [JSON_parse].
             rewrite verifies_false, Hv, Hn. cbn [negb]. rewrite Hu.
             unfold Prisma.organizationUser_create, null_user_id.
             case_split. all: try (intro; discriminate).
          -- intros _. exists invite. auto.
      + erewrite acceptInvitation_rejects; [discriminate| |exact Hv].
        rewrite Hs. reflexivity.
    - rewrite (acceptInvitation_unparseable _ _ _ _ _ _ _ _ _ _ Hs). discriminate.
    - erewrite acceptInvitation_rejects with (invite := JNull);
        [discriminate| |reflexivity].
      rewrite Hs. reflexivity. }
  split; [split|].
  - exact Honly.
  - intros H. rewrite (Hif H). reflexivity.
  - intros H. rewrite (Hif (Honly H)). reflexivity.
Qed.

Lemma acceptInvitation_null_user_iff_witness :
  fst (acceptInvitation digest0 "salt" "u2" "m2" "carl@x.io" "org1" "ABC123"
         None w_stale)
  = Thrown null_user_id.
Proof.
  apply (proj1 (acceptInvitation_null_user_iff digest0 "salt" "u2" "m2"
                  "carl@x.io" "org1" "ABC123" None w_stale)).
  exists (invite_payload "ABC123" "Carl" false ["dev"]).
  repeat split; vm_compute; reflexivity.
Defined.

(** ** Lookups in a table *)

Lemma find_unique {A : Type} (f : A -> string) (l : list A) (x : A) :
  List.NoDup (map f l) -> In x l ->
  List.find (fun y => String.eqb (f y) (f x)) l = Some x.
Proof.
  induction l as [|a l IH]; intros Hnd Hin; [contradiction|].
  inversion Hnd as [|? ? Hnotin Hnd']; subst.
  cbn [List.find]. destruct Hin as [->|Hin].
  - now rewrite String.eqb_refl.
  - destruct (String.eqb (f a) (f x)) eqn:E.
    + apply String.eqb_eq in E. exfalso. apply Hnotin.
      rewrite E. now apply in_map.
    + now apply IH.
Qed.

Lemma find_present {A : Type} (p : A -> bool) (l : list A) (x : A) :
  In x l -> p x = true -> exists y, List.find p l = Some y.
Proof.
  intros Hin Hp. destruct (List.find p l) as [y|] eqn:E; [now exists y|].
  pose proof (find_none _ _ E _ Hin) as N. congruence.
Qed.

(** ** C6: inviting a member *)

(** C6: when the user with the invited email already holds a membership in
    the organization, [inviteUser] throws "already part of organization"
    and leaves the outbox and the key-value store untouched: no email has
    been sent and no pending invitation stored. *)
Theorem inviteUser_already_member (keys : Keys) (entropy : list nat)
    (name : string) (roles : list string) (w : World)
    (u : User.t) (o : Organization.t) (m : OrganizationUser.t) :
  List.NoDup (map User.email (Prisma.user (prisma w))) ->
  In u (Prisma.user (prisma w)) ->
  In o (Prisma.organization (prisma w)) ->
  In m (Prisma.organizationUser (prisma w)) ->
  OrganizationUser.userID m = User.id u ->
  OrganizationUser.organizationID m = Organization.id o ->
  inviteUser keys entropy (User.email u) name (Organization.id o) roles w
  = (Thrown (Error "already part of organization"), w).
Proof.
  intros Hnd Hu Ho Hm Huid Hoid. unfold inviteUser. run.
  unfold Prisma.user_by_email. rewrite (find_unique User.email _ u Hnd Hu).
  unfold Prisma.organization_by_id.
  destruct (find_present
              (fun o' => String.eqb (Organization.id o') (Organization.id o))
              _ o Ho (String.eqb_refl _)) as [o' Ho'].
  rewrite Ho'. apply find_some in Ho'. destruct Ho' as [_ Eo'].
  apply String.eqb_eq in Eo'.
  unfold Prisma.organizationUser_findFirst.
  destruct (find_present
              (fun m0 =>
                 String.eqb (OrganizationUser.organizationID m0)
                            (Organization.id o')
                 && String.eqb (OrganizationUser.userID m0) (User.id u))
              _ m Hm) as [m' Hm'].
  { rewrite Hoid, Huid, Eo'. now rewrite !String.eqb_refl. }
  rewrite Hm'. reflexivity.
Qed.

Lemma inviteUser_already_member_witness :
  inviteUser keys0 [10; 11; 12; 1; 2; 3] "ann@x.io" "Ann" "org1" ["dev"] w0
  = (Thrown (Error "already part of organization"), w0).
Proof.
  apply (inviteUser_already_member keys0 [10; 11; 12; 1; 2; 3] "Ann" ["dev"] w0
           ann acme ann_in_acme).
  - vm_compute. repeat constructor. simpl. tauto.
  - simpl. tauto.
  - simpl. tauto.
  - simpl. tauto.
  - reflexivity.
  - reflexivity.
Defined.

(** ** C5: the last admin *)

Lemma filter_keeps_all {A : Type} (q : A -> bool) (l : list A) :
  (forall x, In x l -> q x = true) -> List.filter q l = l.
Proof.
  induction l as [|a l IH]; intros H; [reflexivity|].
  cbn [List.filter]. rewrite (H a (or_introl eq_refl)).
  f_equal. apply IH. intros x Hx. apply H. now right.
Qed.

(** Deleting the row with the key of [m] removes [m] and nothing else. *)
Lemma length_filter_without {A : Type} (id : A -> string) (p : A -> bool)
    (l : list A) (m : A) :
  List.NoDup (map id l) -> In m l ->
  length (List.filter p l)
  = length (List.filter p
              (List.filter (fun x => negb (String.eqb (id x) (id m))) l))
    + (if p m then 1 else 0).
Proof.
  induction l as [|a l IH]; intros Hnd Hin; [contradiction|].
  inversion Hnd as [|? ? Hnotin Hnd']; subst.
  destruct Hin as [->|Hin].
  - cbn [List.filter]. rewrite String.eqb_refl. cbn [negb].
    rewrite (filter_keeps_all (fun x => negb (String.eqb (id x) (id m)))).
    + destruct (p m); simpl; lia.
    + intros x Hx. apply negb_true_iff, String.eqb_neq. intros E.
      apply Hnotin. rewrite <- E. now apply in_map.
  - assert (E : String.eqb (id a) (id m) = false).
    { apply String.eqb_neq. intros E. apply Hnotin. rewrite E. now apply in_map. }
    cbn [List.filter]. rewrite E. cbn [negb List.filter].
    specialize (IH Hnd' Hin). destruct (p a); simpl; lia.
Qed.

Lemma leaveOrganization_found (userID org : string) (w : World)
    (m : OrganizationUser.t) :
  Prisma.organizationUser_findFirst (member_of userID org) (prisma w) = Some m ->
  In m (Prisma.organizationUser (prisma w))
  /\ OrganizationUser.userID m = userID
  /\ OrganizationUser.organizationID m = org
  /\ Prisma.organizationUser_by_id (OrganizationUser.id m) (prisma w) <> None.
Proof.
  intros H. apply find_some in H. destruct H as [Hin Hp].
  unfold member_of in Hp. apply andb_true_iff in Hp. destruct Hp as [H1 H2].
  apply String.eqb_eq in H1, H2. repeat split; try assumption.
  unfold Prisma.organizationUser_by_id.
  destruct (find_present
              (fun m' => String.eqb (OrganizationUser.id m') (OrganizationUser.id m))
              _ m Hin (String.eqb_refl _)) as [m' Hm'].
  rewrite Hm'. discriminate.
Qed.

Lemma leaveOrganization_cases (userID org : string) (w : World) :
  leaveOrganization userID org w
  = match Prisma.organizationUser_findFirst (member_of userID org) (prisma w) with
    | None => (Thrown (Error "you are not part of this organization"), w)
    | Some m =>
        if OrganizationUser.isAdmin m && (length (admins org (prisma w)) =? 1)
        then (Thrown (Error "admin cannot leave organization"), w)
        else (Returned true, without m w)
    end.
Proof.
  unfold leaveOrganization. run.
  destruct (Prisma.organizationUser_findFirst (member_of userID org) (prisma w))
    as [m|] eqn:Hm; [|reflexivity].
  destruct (leaveOrganization_found _ _ _ _ Hm) as (_ & _ & _ & Hid).
  unfold admins.
  destruct (OrganizationUser.isAdmin m); cbn [andb].
  - destruct (length (Prisma.organizationUser_findMany (admin_of org) (prisma w)) =? 1);
      [reflexivity|].
    unfold Prisma.organizationUser_delete.
    destruct (Prisma.organizationUser_by_id (OrganizationUser.id m) (prisma w));
      [reflexivity|contradiction].
  - unfold Prisma.organizationUser_delete.
    destruct (Prisma.organizationUser_by_id (OrganizationUser.id m) (prisma w));
      [reflexivity|contradiction].
Qed.

Lemma admins_without (o : string) (w : World) (m : OrganizationUser.t) :
  unique_membership_ids (prisma w) ->
  In m (Prisma.organizationUser (prisma w)) ->
  length (admins o (prisma w))
  = length (admins o (prisma (without m w)))
    + (if admin_of o m then 1 else 0).
Proof.
  intros Hnd Hin. unfold admins, Prisma.organizationUser_findMany, without.
  cbn [prisma Prisma.organizationUser].
  now apply length_filter_without.
Qed.

Lemma findFirst_the_membership (w : World) (m : OrganizationUser.t) :
  one_membership_per_user (prisma w) ->
  In m (Prisma.organizationUser (prisma w)) ->
  Prisma.organizationUser_findFirst
    (member_of (OrganizationUser.userID m) (OrganizationUser.organizationID m))
    (prisma w)
  = Some m.
Proof.
  intros Hone Hin. unfold Prisma.organizationUser_findFirst.
  destruct (find_present
              (member_of (OrganizationUser.userID m)
                         (OrganizationUser.organizationID m))
              _ m Hin) as [m' Hm'].
  { unfold member_of. now rewrite !String.eqb_refl. }
  rewrite Hm'. f_equal.
  apply find_some in Hm'. destruct Hm' as [Hin' Hp].
  unfold member_of in Hp. apply andb_true_iff in Hp. destruct Hp as [H1 H2].
  apply String.eqb_eq in H1, H2. now apply Hone.
Qed.

(** C5: an admin who is the only admin of the organization cannot leave
    (the call throws "admin cannot leave organization" and changes
    nothing); with at least one other admin the membership is deleted; and
    whatever a call of [leaveOrganization] does, an organization that had
    an admin membership still has one afterwards. *)
Theorem leaveOrganization_keeps_admin (w : World) :
  unique_membership_ids (prisma w) ->
  one_membership_per_user (prisma w) ->
  (forall m,
      In m (Prisma.organizationUser (prisma w)) ->
      OrganizationUser.isAdmin m = true ->
      let userID := OrganizationUser.userID m in
      let org := OrganizationUser.organizationID m in
      1 <= length (admins org (prisma w))
      /\ (length (admins org (prisma w)) = 1 ->
          leaveOrganization userID org w
          = (Thrown (Error "admin cannot leave organization"), w))
      /\ (2 <= length (admins org (prisma w)) ->
          leaveOrganization userID org w = (Returned true, without m w)
          /\ ~ In m (Prisma.organizationUser (prisma (without m w)))
          /\ length (admins org (prisma (without m w)))
             = length (admins org (prisma w)) - 1))
  /\ (forall userID org o,
         1 <= length (admins o (prisma w)) ->
         1 <= length (admins o (prisma (snd (leaveOrganization userID org w))))).
Proof.
  intros Hnd Hone. split.
  - intros m Hin Hadmin userID org.
    pose proof (findFirst_the_membership w m Hone Hin) as Hm.
    fold userID org in Hm.
    pose proof (admins_without org w m Hnd Hin) as Hlen.
    assert (Ha : admin_of org m = true).
    { unfold admin_of. rewrite Hadmin. apply String.eqb_refl. }
    rewrite Ha in Hlen.
    rewrite leaveOrganization_cases, Hm, Hadmin. cbn [andb].
    split; [lia|]. split.
    + intros E. rewrite E. reflexivity.
    + intros H2.
      assert (N : (length (admins org (prisma w)) =? 1) = false)
        by (apply Nat.eqb_neq; lia).
      rewrite N. split; [reflexivity|]. split; [|lia].
      unfold without. cbn [prisma Prisma.organizationUser].
      intros Hin'. apply filter_In in Hin'. destruct Hin' as [_ Hq].
      rewrite String.eqb_refl in Hq. discriminate.
  - intros userID org o Ho. rewrite leaveOrganization_cases.
    destruct (Prisma.organizationUser_findFirst (member_of userID org) (prisma w))
      as [m|] eqn:Hm; [|exact Ho].
    destruct (leaveOrganization_found _ _ _ _ Hm) as (Hin & _ & Horg & _).
    pose proof (admins_without o w m Hnd Hin) as Hlen.
    destruct (OrganizationUser.isAdmin m) eqn:Hadmin; cbn [andb].
    + destruct (length (admins org (prisma w)) =? 1) eqn:E; [exact Ho|].
      cbn [snd]. apply Nat.eqb_neq in E.
      unfold admin_of in Hlen. rewrite Hadmin, Horg in Hlen. cbn [andb] in Hlen.
      destruct (String.eqb org o) eqn:Eo.
      * apply String.eqb_eq in Eo. subst o. lia.
      * lia.
    + cbn [snd]. unfold admin_of in Hlen. rewrite Hadmin in Hlen.
      cbn [andb] in Hlen. lia.
Qed.

Lemma leaveOrganization_keeps_admin_witness :
  leaveOrganization "u1" "org1" w0
  = (Thrown (Error "admin cannot leave organization"), w0)
  /\ leaveOrganization "u1" "org1" w_two_admins
     = (Returned true, without ann_in_acme w_two_admins)
  /\ 1 <= length (admins "org1"
                    (prisma (snd (leaveOrganization "u1" "org1" w_two_admins)))).
Proof.
  assert (U0 : unique_membership_ids (prisma w0)).
  { vm_compute. repeat constructor. simpl. tauto. }
  assert (O0 : one_membership_per_user (prisma w0)).
  { intros m1 m2 H1 H2 _ _. simpl in H1, H2.
    destruct H1 as [<-|[]], H2 as [<-|[]]. reflexivity. }
  assert (U2 : unique_membership_ids (prisma w_two_admins)).
  { vm_compute. repeat constructor; simpl; intuition discriminate. }
  assert (O2 : one_membership_per_user (prisma w_two_admins)).
  { intros m1 m2 H1 H2 E _. simpl in H1, H2.
    destruct H1 as [<-|[<-|[]]], H2 as [<-|[<-|[]]];
      try reflexivity; discriminate E. }
  split; [|split].
  - destruct (leaveOrganization_keeps_admin w0 U0 O0) as [H _].
    destruct (H ann_in_acme (or_introl eq_refl) eq_refl) as (_ & Hthrow & _).
    apply Hthrow. reflexivity.
  - destruct (leaveOrganization_keeps_admin w_two_admins U2 O2) as [H _].
    destruct (H ann_in_acme (or_introl eq_refl) eq_refl) as (_ & _ & Hdel).
    apply Hdel. vm_compute. lia.
  - destruct (leaveOrganization_keeps_admin w_two_admins U2 O2) as [_ H].
    apply H. vm_compute. lia.
Defined.

(** ** C8: creating an organization *)

Lemma hex_digit_is_hex (n : nat) : n < 16 -> is_hex (hex_digit n) = true.
Proof.
  intros H. do 16 (destruct n as [|n]; [reflexivity|]). lia.
Qed.

Lemma toString_hex_shape (buffer : list nat) :
  Forall (fun b => b < 256) buffer ->
  String.length (toString_hex buffer) = 2 * length buffer
  /\ all_hex (toString_hex buffer) = true.
Proof.
  unfold all_hex, chars.
  induction 1 as [|b buffer Hb _ [IHlen IHhex]]; [split; reflexivity|].
  cbn [toString_hex String.length list_ascii_of_string forallb length].
  rewrite IHlen, IHhex. split; [lia|].
  rewrite !hex_digit_is_hex; [reflexivity| |].
  - apply Nat.mod_upper_bound. lia.
  - apply Nat.Div0.div_lt_upper_bound. lia.
Qed.

Lemma randomBytes_shape (size : nat) (entropy : nat -> nat) :
  length (randomBytes size entropy) = size
  /\ Forall (fun b => b < 256) (randomBytes size entropy).
Proof.
  unfold randomBytes. split.
  - now rewrite length_map, length_seq.
  - apply List.Forall_forall. intros b Hb. apply in_map_iff in Hb.
    destruct Hb as (i & <- & _). apply Nat.mod_upper_bound. lia.
Qed.

(** C8: for an existing user [adminID], [createOrganization] adds exactly
    one organization, whose identifier is [name], a dash and the 12 hex
    digits of 6 random bytes, and exactly one membership, which links
    [adminID] to that organization with [isAdmin = true]; nothing else
    changes. The store hands out unused ids and the identifier is not
    taken. *)
Theorem createOrganization_creates (entropy : nat -> nat)
    (oid ouid adminID name : string) (w : World) (admin : User.t) :
  let suffix := toString_hex (randomBytes 6 entropy) in
  Prisma.user_by_id adminID (prisma w) = Some admin ->
  Prisma.organization_by_id oid (prisma w) = None ->
  Prisma.organizationUser_by_id ouid (prisma w) = None ->
  Prisma.organization_by_identifier (name +:+ "-" +:+ suffix) (prisma w) = None ->
  exists w',
    createOrganization entropy oid ouid adminID name w = (Returned true, w')
    /\ Prisma.organization (prisma w')
       = Prisma.organization (prisma w)
         ++ [{| Organization.id := oid;
                Organization.name := name;
                Organization.identifier := name +:+ "-" +:+ suffix |}]
    /\ Prisma.organizationUser (prisma w')
       = Prisma.organizationUser (prisma w)
         ++ [{| OrganizationUser.id := ouid;
                OrganizationUser.userID := adminID;
                OrganizationUser.organizationID := oid;
                OrganizationUser.isAdmin := true |}]
    /\ Prisma.user (prisma w') = Prisma.user (prisma w)
    /\ Prisma.role (prisma w') = Prisma.role (prisma w)
    /\ redis w' = redis w /\ mailer w' = mailer w
    /\ length (randomBytes 6 entropy) = 6
    /\ String.length suffix = 12
    /\ all_hex suffix = true.
Proof.
  intros suffix Hadmin Hoid Houid Hident.
  destruct (randomBytes_shape 6 entropy) as [Hlen Hbytes].
  destruct (toString_hex_shape _ Hbytes) as [Hslen Hshex].
  rewrite Hlen in Hslen.
  eexists. split.
  { unfold createOrganization. run.
    unfold Prisma.organizationUser_create_with_organization.
    cbn [OrganizationUser.userID OrganizationUser.id Organization.id
         Organization.identifier].
    fold suffix. rewrite Hadmin, Hoid, Hident, Houid. reflexivity. }
  cbn [prisma redis mailer Prisma.with_organizationUser Prisma.with_organization
       Prisma.organization Prisma.organizationUser Prisma.user Prisma.role map].
  rewrite app_nil_r. repeat split; assumption.
Qed.

Lemma createOrganization_creates_witness :
  exists w',
    createOrganization (fun i => 17 * i + 3) "org2" "m9" "u1" "Acme" w0
    = (Returned true, w')
    /\ Prisma.organization (prisma w')
       = [acme;
          {| Organization.id := "org2"; Organization.name := "Acme";
             Organization.identifier := "Acme-031425364758" |}]
    /\ Prisma.organizationUser (prisma w')
       = [ann_in_acme;
          {| OrganizationUser.id := "m9"; OrganizationUser.userID := "u1";
             OrganizationUser.organizationID := "org2";
             OrganizationUser.isAdmin := true |}].
Proof.
  destruct (createOrganization_creates (fun i => 17 * i + 3)
              "org2" "m9" "u1" "Acme" w0 ann)
    as (w' & Hrun & Horg & Hmem & _); try reflexivity.
  exists w'. split; [exact Hrun|]. split; [exact Horg|exact Hmem].
Defined.

(** ** C9: the projection of [fetchOrganizationUsers] *)

Lemma select_same_public (l1 l2 : list User.t) (id : string) :
  Forall2 same_public l1 l2 ->
  (fun u => {| select_email := User.email u;
               select_profileData := User.profileData u |})
    <$> List.find (fun u => String.eqb (User.id u) id) l1
  = (fun u => {| select_email := User.email u;
                 select_profileData := User.profileData u |})
    <$> List.find (fun u => String.eqb (User.id u) id) l2.
Proof.
  induction 1 as [|u1 u2 l1 l2 (Hid & Hemail & Hprofile) _ IH]; [reflexivity|].
  cbn [List.find]. rewrite Hid.
  destruct (String.eqb (User.id u2) id); [|exact IH].
  simpl. now rewrite Hemail, Hprofile.
Qed.

(** C9: [fetchOrganizationUsers] only reads, and what it returns (each
    membership of the organization with the email and profile data of its
    user) is the same in any two stores that differ only in the
    credential data of their users. *)
Theorem fetchOrganizationUsers_hides_credentials (organizationID : string)
    (w1 w2 : World) :
  Forall2 same_public (Prisma.user (prisma w1)) (Prisma.user (prisma w2)) ->
  Prisma.organizationUser (prisma w1) = Prisma.organizationUser (prisma w2) ->
  fst (fetchOrganizationUsers organizationID w1)
  = fst (fetchOrganizationUsers organizationID w2)
  /\ snd (fetchOrganizationUsers organizationID w1) = w1
  /\ exists rows,
       fst (fetchOrganizationUsers organizationID w1) = Returned rows
       /\ map membership rows
          = List.filter
              (fun m => String.eqb (OrganizationUser.organizationID m)
                                   organizationID)
              (Prisma.organizationUser (prisma w1)).
Proof.
  intros Husers Hmembers. unfold fetchOrganizationUsers. run.
  unfold Prisma.organizationUser_findMany, Prisma.user_by_id.
  rewrite <- Hmembers. split; [|split; [reflexivity|]].
  - f_equal. apply map_ext. intros m. f_equal.
    now apply select_same_public.
  - eexists. split; [reflexivity|].
    rewrite map_map. cbn [membership]. apply map_id.
Qed.

Lemma fetchOrganizationUsers_hides_credentials_witness :
  fst (fetchOrganizationUsers "org1" w_two_admins)
  = fst (fetchOrganizationUsers "org1" w_two_admins_rehashed).
Proof.
  apply (fetchOrganizationUsers_hides_credentials "org1"
           w_two_admins w_two_admins_rehashed).
  - repeat constructor.
  - reflexivity.
Defined.

(** ** C2: invite, accept, accept again *)

Lemma find_app_some {A : Type} (p : A -> bool) (l l' : list A) (x : A) :
  List.find p l = Some x -> List.find p (l ++ l') = Some x.
Proof.
  induction l as [|a l IH]; [discriminate|].
  cbn [List.find app]. destruct (p a); [trivial|exact IH].
Qed.

Lemma find_app_none {A : Type} (p : A -> bool) (l l' : list A) :
  List.find p l = None -> List.find p (l ++ l') = List.find p l'.
Proof.
  induction l as [|a l IH]; [reflexivity|].
  cbn [List.find app]. destruct (p a); [discriminate|exact IH].
Qed.

Lemma role_names_strings (roles : list string) :
  role_names (map JStr roles) = Some roles.
Proof.
  induction roles as [|r roles IH]; [reflexivity|].
  cbn [map role_names]. now rewrite IH.
Qed.

Lemma inviteUser_returned (keys : Keys) (entropy : list nat)
    (email name org : string) (roles : list string) (w w1 : World) :
  inviteUser keys entropy email name org roles w = (Returned true, w1) ->
  exists o code,
    Prisma.organization_by_id org (prisma w) = Some o
    /\ inviteUser_code entropy = Returned code
    /\ match Prisma.user_by_email email (prisma w) with
       | Some u =>
           Prisma.organizationUser_findFirst
             (fun m =>
                String.eqb (OrganizationUser.organizationID m) (Organization.id o)
                && String.eqb (OrganizationUser.userID m) (User.id u))
             (prisma w) = None
           /\ w1 = invited keys o email name org false code roles w
       | None => w1 = invited keys o email name org true code roles w
       end.
Proof.
  unfold inviteUser. run.
  destruct (Prisma.organization_by_id org (prisma w)) as [o|]; [|discriminate].
  destruct (Prisma.user_by_email email (prisma w)) as [u|].
  - destruct (Prisma.organizationUser_findFirst _ (prisma w)) eqn:Hm;
      [discriminate|].
    destruct (inviteUser_code entropy) as [code| |]; try discriminate.
    intros H. injection H as <-. exists o, code. auto.
  - destruct (inviteUser_code entropy) as [code| |]; try discriminate.
    intros H. injection H as <-. exists o, code. auto.
Qed.

Lemma verifies_invite_payload (code name : string) (newUser : bool)
    (roles : list string) :
  String.length code = 6 ->
  verifies (invite_payload code name newUser roles) code = true.
Proof.
  intros Hlen. unfold verifies, invite_payload.
  cbn [truthy prop assoc String.eqb Ascii.eqb Bool.eqb andb truthy_prop
       strict_eq_string].
  rewrite Hlen, String.eqb_refl. reflexivity.
Qed.

Lemma acceptInvitation_consumed
    (digest : string -> nat -> string -> string)
    (salt uid ouid email org code : string) (password : option string)
    (w : World) :
  redis w !! invite_key org email = None ->
  acceptInvitation digest salt uid ouid email org code password w
  = (Thrown unable_to_verify, w).
Proof.
  intros H. apply acceptInvitation_rejects with (invite := JNull);
    [|reflexivity].
  unfold stored_invite. rewrite H. reflexivity.
Qed.

(** C2: after a successful [inviteUser], [acceptInvitation] with the code
    that was generated (and a password when the user is new) returns
    [true]: it appends one non-admin membership of the organization for
    the user with that email and then deletes the pending invitation, so
    every later [acceptInvitation] with the same code throws the
    verification error. The ids the store hands out are unused. *)
Theorem invite_then_accept_once (keys : Keys)
    (digest : string -> nat -> string -> string) (entropy : list nat)
    (salt uid ouid email name org code : string) (roles : list string)
    (password : option string) (w w1 : World) :
  inviteUser keys entropy email name org roles w = (Returned true, w1) ->
  inviteUser_code entropy = Returned code ->
  (Prisma.user_by_email email (prisma w) = None -> password <> None) ->
  Prisma.user_by_id uid (prisma w) = None ->
  Prisma.organizationUser_by_id ouid (prisma w) = None ->
  exists w2 u,
    acceptInvitation digest salt uid ouid email org code password w1
    = (Returned true, w2)
    /\ Prisma.user_by_email email (prisma w2) = Some u
    /\ Prisma.organizationUser (prisma w2)
       = Prisma.organizationUser (prisma w)
         ++ [{| OrganizationUser.id := ouid;
                OrganizationUser.userID := User.id u;
                OrganizationUser.organizationID := org;
                OrganizationUser.isAdmin := false |}]
    /\ redis w2 !! invite_key org email = None
    /\ (forall salt' uid' ouid' password',
           acceptInvitation digest salt' uid' ouid' email org code password' w2
           = (Thrown unable_to_verify, w2)).
Proof.
  intros Hinvite Hcode Hpw Huid Houid.
  destruct (inviteUser_returned _ _ _ _ _ _ _ _ Hinvite)
    as (o & code' & Horg & Hcode' & Huser).
  rewrite Hcode in Hcode'. injection Hcode' as <-.
  pose proof (inviteUser_code_outcome entropy) as Hshape.
  rewrite Hcode in Hshape. destruct Hshape as (Hlen & _ & _).
  destruct (Prisma.user_by_email email (prisma w)) as [u|] eqn:Hu.
  - (* the invited user exists *)
    destruct Huser as [Hnotmember ->].
    assert (Hbyid : exists u', Prisma.user_by_id (User.id u) (prisma w) = Some u').
    { apply find_some in Hu. destruct Hu as [Hin _].
      apply (find_present _ _ u Hin). apply String.eqb_refl. }
    destruct Hbyid as [u' Hu'].
    eexists. exists u. split.
    { unfold acceptInvitation. run. unfold invited at 1. cbn [redis].
      rewrite lookup_insert_eq. cbn [fmap option_fmap option_map Redis.value
                                      JSON_parse].
      rewrite verifies_false, verifies_invite_payload by exact Hlen.
      cbn [negb invite_payload prop assoc String.eqb Ascii.eqb Bool.eqb
           truthy_prop truthy].
      unfold invited. cbn [prisma redis mailer]. rewrite Hu.
      rewrite role_names_strings.
      unfold Prisma.organizationUser_create.
      cbn [OrganizationUser.id OrganizationUser.userID
           OrganizationUser.organizationID prisma redis mailer].
      rewrite Houid, Hu', Horg. reflexivity. }
    cbn [prisma redis Prisma.with_organizationUser Prisma.organizationUser].
    split; [|split; [reflexivity|split]].
    + unfold Prisma.user_by_email in *. exact Hu.
    + apply lookup_delete_eq.
    + intros. apply acceptInvitation_consumed. cbn [redis].
      apply lookup_delete_eq.
  - (* the invited user is new *)
    subst w1. destruct password as [p|]; [|now destruct (Hpw eq_refl)].
    eexists.
    exists {| User.id := uid;
              User.email := email;
              User.authData := JObj [("password", JStr (digest p 10 salt))];
              User.profileData :=
                JObj [("firstname", JStr name);
                      ("lastname", JStr EmptyString);
                      ("status", JStr "verified")] |}.
    split.
    { unfold acceptInvitation. run. unfold invited at 1. cbn [redis].
      rewrite lookup_insert_eq. cbn [fmap option_fmap option_map Redis.value
                                      JSON_parse].
      rewrite verifies_false, verifies_invite_payload by exact Hlen.
      cbn [negb invite_payload prop assoc String.eqb Ascii.eqb Bool.eqb
           truthy_prop truthy object].
      unfold invited. cbn [prisma redis mailer].
      unfold Prisma.user_create. cbn [User.id User.email].
      rewrite Huid, Hu. cbn [prisma redis mailer].
      rewrite role_names_strings.
      unfold Prisma.organizationUser_create.
      cbn [OrganizationUser.id OrganizationUser.userID
           OrganizationUser.organizationID User.id prisma redis mailer].
      unfold Prisma.organizationUser_by_id, Prisma.user_by_id,
        Prisma.organization_by_id in *.
      cbn [Prisma.with_user Prisma.organizationUser Prisma.user
           Prisma.organization].
      rewrite Houid, Horg.
      rewrite (find_app_none _ _ _ Huid). cbn [List.find User.id].
      rewrite String.eqb_refl. reflexivity. }
    cbn [prisma redis Prisma.with_organizationUser Prisma.with_user
         Prisma.organizationUser Prisma.user User.id].
    split; [|split; [reflexivity|split]].
    + unfold Prisma.user_by_email in *.
      cbn [Prisma.user Prisma.with_organizationUser Prisma.with_user].
      rewrite (find_app_none _ _ _ Hu). cbn [List.find User.email].
      rewrite String.eqb_refl. reflexivity.
    + apply lookup_delete_eq.
    + intros. apply acceptInvitation_consumed. cbn [redis].
      apply lookup_delete_eq.
Qed.

Lemma invite_then_accept_once_witness :
  exists w2,
    acceptInvitation digest0 "salt" "u2" "m2" "bob@x.io" "org1" "ABC123"
      (Some "hunter2") w_bob_invited
    = (Returned true, w2)
    /\ redis w2 !! invite_key "org1" "bob@x.io" = None
    /\ acceptInvitation digest0 "salt" "u3" "m3" "bob@x.io" "org1" "ABC123"
         (Some "hunter2") w2
       = (Thrown unable_to_verify, w2).
Proof.
  destruct (invite_then_accept_once keys0 digest0 [10; 11; 12; 1; 2; 3]
              "salt" "u2" "m2" "bob@x.io" "Bob" "org1" "ABC123" ["dev"]
              (Some "hunter2") w0 w_bob_invited)
    as (w2 & u & Haccept & _ & _ & Hgone & Hagain).
  - vm_compute. reflexivity.
  - reflexivity.
  - discriminate.
  - reflexivity.
  - reflexivity.
  - exists w2. split; [exact Haccept|]. split; [exact Hgone|]. apply Hagain.
Defined.
(** ** C7: what is stored as credential data *)

(** [addUser] writes the [password] argument itself into [authData]. *)
Lemma addUser_authData (uid ouid email name password org : string)
    (roles : list string) (w w' : World) (m : OrganizationUser.t) :
  addUser uid ouid email name password org roles w = (Returned m, w') ->
  Prisma.user (prisma w')
  = Prisma.user (prisma w)
    ++ [{| User.id := uid;
           User.email := email;
           User.authData := JObj [("password", JStr password)];
           User.profileData := JObj [("firstname", JStr name)] |}].
Proof.
  unfold addUser. run.
  unfold Prisma.organizationUser_create_with_user, Prisma.user_create.
  cbn [User.id User.email OrganizationUser.id OrganizationUser.organizationID].
  destruct (Prisma.user_by_id uid (prisma w)); [discriminate|].
  destruct (Prisma.user_by_email email (prisma w)); [discriminate|].
  destruct (Prisma.organization_by_id org _); [|discriminate].
  destruct (Prisma.organizationUser_by_id ouid _); [discriminate|].
  intros H. injection H as _ <-. reflexivity.
Qed.

(** [acceptInvitation], on the new-user path, writes the digest that
    [bcrypt.hash] returns. *)
Lemma acceptInvitation_authData (digest : string -> nat -> string -> string)
    (salt uid ouid email org code : string) (password : option string)
    (w w' : World) (invite : json) :
  stored_invite org email w = Some (JsonText invite) ->
  truthy_prop (prop invite "newuser") = true ->
  acceptInvitation digest salt uid ouid email org code password w
  = (Returned true, w') ->
  exists p,
    password = Some p
    /\ Prisma.user (prisma w')
       = Prisma.user (prisma w)
         ++ [{| User.id := uid;
                User.email := email;
                User.authData := JObj [("password", JStr (digest p 10 salt))];
                User.profileData :=
                  JObj (object [("firstname", prop invite "name");
                                ("lastname", Some (JStr EmptyString));
                                ("status", Some (JStr "verified"))]) |}].
Proof.
  intros Hs Hn. unfold acceptInvitation. run.
  fold (stored_invite org email w). rewrite Hs. cbn [JSON_parse].
  rewrite verifies_false, Hn.
  destruct (verifies invite code); cbn [negb]; [|discriminate].
  destruct password as [p|]; [|discriminate].
  unfold Prisma.user_create. cbn [User.id User.email].
  destruct (Prisma.user_by_id uid (prisma w)); [discriminate|].
  destruct (Prisma.user_by_email email (prisma w)); [discriminate|].
  cbn [fst snd prisma redis mailer].
  destruct (prop invite "roles") as [[]|]; try discriminate.
  destruct (role_names items) as [roles|]; [|discriminate].
  unfold Prisma.organizationUser_create.
  cbn [OrganizationUser.id OrganizationUser.userID
       OrganizationUser.organizationID User.id].
  destruct (Prisma.organizationUser_by_id ouid _); [discriminate|].
  destruct (Prisma.user_by_id uid _); [|discriminate].
  destruct (Prisma.organization_by_id org _); [|discriminate].
  cbn [fst snd prisma redis mailer].
  intros H. injection H as <-. exists p. split; reflexivity.
Qed.

(** C7 fails on [addUser]: called with the password [hunter2] it creates
    the user with [authData = { password: "hunter2" }], the plaintext it
    was given, where [acceptInvitation] stores a digest. *)
Theorem addUser_stores_plaintext :
  exists m w',
    addUser "u2" "m2" "bob@x.io" "Bob" "hunter2" "org1" ["dev"] w0
    = (Returned m, w')
    /\ User.authData <$> Prisma.user_by_email "bob@x.io" (prisma w')
       = Some (JObj [("password", JStr "hunter2")]).
Proof.
  eexists. eexists. split; [vm_compute; reflexivity|].
  vm_compute. reflexivity.
Qed.

(** * Further properties of the service *)

(** ** The key of a pending invitation *)

Lemma append_assoc_string (a b c : string) :
  (a +:+ b) +:+ c = a +:+ (b +:+ c).
Proof.
  induction a as [|x a IH]; [reflexivity|].
  change (String x ((a +:+ b) +:+ c) = String x (a +:+ b +:+ c)).
  now rewrite IH.
Qed.

(** The key of line 79 joins the organization id and the email with a
    dash, so moving a dash-separated part from one to the other gives the
    same key. *)
Lemma invite_key_shift (o s e : string) :
  invite_key (o +:+ "-" +:+ s) e = invite_key o (s +:+ "-" +:+ e).
Proof.
  unfold invite_key. rewrite append_assoc_string. reflexivity.
Qed.

(** X1: an invitation stored for organization [o] and email [s-e] is the
    one [acceptInvitation] reads for organization [o-s] and email [e]:
    with the generated code that call passes the verification of line
    89. *)
Theorem invite_key_collision (keys : Keys)
    (digest : string -> nat -> string -> string) (entropy : list nat)
    (salt uid ouid o s e name code : string) (roles : list string)
    (password : option string) (w w1 : World) :
  inviteUser keys entropy (s +:+ "-" +:+ e) name o roles w = (Returned true, w1) ->
  inviteUser_code entropy = Returned code ->
  invite_key (o +:+ "-" +:+ s) e = invite_key o (s +:+ "-" +:+ e)
  /\ (exists invite,
         stored_invite (o +:+ "-" +:+ s) e w1 = Some (JsonText invite)
         /\ prop invite "code" = Some (JStr code))
  /\ fst (acceptInvitation digest salt uid ouid e (o +:+ "-" +:+ s) code
            password w1)
     <> Thrown unable_to_verify.
Proof.
  intros Hinvite Hcode.
  destruct (inviteUser_returned _ _ _ _ _ _ _ _ Hinvite)
    as (org & code' & _ & Hcode' & Hw1).
  rewrite Hcode in Hcode'. injection Hcode' as <-.
  pose proof (inviteUser_code_outcome entropy) as Hshape.
  rewrite Hcode in Hshape. destruct Hshape as (Hlen & _ & _).
  assert (Hstored : exists newUser,
             stored_invite (o +:+ "-" +:+ s) e w1
             = Some (JsonText (invite_payload code name newUser roles))).
  { unfold stored_invite. rewrite invite_key_shift.
    destruct (Prisma.user_by_email (s +:+ "-" +:+ e) (prisma w)).
    - destruct Hw1 as [_ ->]. exists false. unfold invited. cbn [redis].
      now rewrite lookup_insert_eq.
    - subst w1. exists true. unfold invited. cbn [redis].
      now rewrite lookup_insert_eq. }
  destruct Hstored as [newUser Hstored].
  split; [apply invite_key_shift|]. split.
  - exists (invite_payload code name newUser roles). split; [exact Hstored|].
    reflexivity.
  - apply acceptInvitation_verified_outcome
      with (invite := invite_payload code name newUser roles).
    + rewrite Hstored. reflexivity.
    + now apply verifies_invite_payload.
Qed.

Lemma invite_key_collision_witness :
  fst (acceptInvitation digest0 "salt" "u2" "m2" "bob@x.io" "org1-x" "ABC123"
         None
         (snd (inviteUser keys0 [10; 11; 12; 1; 2; 3] "x-bob@x.io" "Bob" "org1"
                 ["dev"] w0)))
  <> Thrown unable_to_verify.
Proof.
  apply (invite_key_collision keys0 digest0 [10; 11; 12; 1; 2; 3]
           "salt" "u2" "m2" "org1" "x" "bob@x.io" "Bob" "ABC123" ["dev"]
           None w0).
  - vm_compute. reflexivity.
  - reflexivity.
Defined.

Lemma append_cons (c : ascii) (s t : string) :
  String c s +:+ t = String c (s +:+ t).
Proof. reflexivity. Qed.

Lemma append_nil (t : string) : EmptyString +:+ t = t.
Proof. reflexivity. Qed.

Lemma append_inj_l (a x y : string) : a +:+ x = a +:+ y -> x = y.
Proof.
  induction a as [|c a IH]; [trivial|].
  rewrite !append_cons. intros H. injection H as H. now apply IH.
Qed.

Lemma dash_split (o1 o2 e1 e2 : string) :
  no_dash o1 = true -> no_dash o2 = true ->
  o1 +:+ "-" +:+ e1 = o2 +:+ "-" +:+ e2 ->
  o1 = o2 /\ e1 = e2.
Proof.
  revert o2. induction o1 as [|c1 o1 IH]; intros [|c2 o2] H1 H2 E.
  - rewrite !append_nil in E. split; [reflexivity|].
    now apply (append_inj_l "-").
  - rewrite append_nil, !append_cons, append_nil in E.
    injection E as Hc _. subst c2.
    unfold no_dash, chars in H2. cbn in H2. discriminate.
  - rewrite append_nil, !append_cons, append_nil in E.
    injection E as Hc _. subst c1.
    unfold no_dash, chars in H1. cbn in H1. discriminate.
  - rewrite !append_cons in E. injection E as Hc E. subst c2.
    unfold no_dash, chars in H1, H2. cbn [list_ascii_of_string forallb] in H1, H2.
    apply andb_true_iff in H1, H2. destruct H1 as [_ H1], H2 as [_ H2].
    destruct (IH o2 H1 H2 E) as [-> ->]. split; reflexivity.
Qed.

(** X2: when organization ids hold no dash, the key of line 79 determines
    the organization and the email: two different invitations never share
    a key. *)
Theorem invite_key_injective (o1 e1 o2 e2 : string) :
  no_dash o1 = true -> no_dash o2 = true ->
  invite_key o1 e1 = invite_key o2 e2 ->
  o1 = o2 /\ e1 = e2.
Proof.
  intros H1 H2 E. unfold invite_key in E.
  apply append_inj_l in E. now apply dash_split.
Qed.

Lemma invite_key_injective_witness :
  "org1" = "org1" /\ "x-bob@x.io" = "x-bob@x.io".
Proof.
  apply (invite_key_injective "org1" "x-bob@x.io" "org1" "x-bob@x.io");
    reflexivity.
Defined.

(** ** Edge cases of [acceptInvitation] *)

Lemma acceptInvitation_verified
    (digest : string -> nat -> string -> string)
    (salt uid ouid email org code : string) (password : option string)
    (w : World) (invite : json) :
  stored_invite org email w = Some (JsonText invite) ->
  verifies invite code = true ->
  acceptInvitation digest salt uid ouid email org code password w
  = if truthy_prop (prop invite "newuser")
    then
      match password with
      | None => (Thrown (Error "data and salt arguments required"), w)
      | Some p =>
          match Prisma.user_create (invited_user digest salt uid email p invite)
                                   (prisma w) with
          | (Returned created, db) =>
              join_organization invite ouid email org (Some created)
                (with_prisma db w)
          | (Thrown e, db) => (Thrown e, with_prisma db w)
          | (Unfinished, db) => (Unfinished, with_prisma db w)
          end
      end
    else join_organization invite ouid email org
           (Prisma.user_by_email email (prisma w)) w.
Proof.
  intros Hs Hv. unfold acceptInvitation. run.
  fold (stored_invite org email w). rewrite Hs. cbn [JSON_parse].
  rewrite verifies_false, Hv. cbn [negb].
  unfold join_organization, with_prisma, null_user_id.
  destruct (truthy_prop (prop invite "newuser")); cbn [negb].
  - destruct password as [p|]; [|reflexivity].
    fold (invited_user digest salt uid email p invite).
    destruct (Prisma.user_create _ (prisma w)) as [[created|e|] db];
      try reflexivity.
    cbn [prisma redis mailer].
    destruct (prop invite "roles") as [[]|]; try reflexivity.
    destruct (role_names items); [|reflexivity].
    cbn [prisma redis mailer].
    destruct (Prisma.organizationUser_create _ _ db) as [[?|?|] ?];
      cbn [prisma redis mailer]; reflexivity.
  - destruct (Prisma.user_by_email email (prisma w)); [|reflexivity].
    destruct (prop invite "roles") as [[]|]; try reflexivity.
    destruct (role_names items); [|reflexivity].
    destruct (Prisma.organizationUser_create _ _ (prisma w)) as [[?|?|] ?];
      cbn [prisma redis mailer]; reflexivity.
Qed.

(** X3: [acceptInvitation] never sends mail and never touches the table
    of organizations; it deletes the key of the invitation when it returns
    and leaves the key-value store as it is whenever it throws. *)
Theorem acceptInvitation_frame
    (digest : string -> nat -> string -> string)
    (salt uid ouid email org code : string) (password : option string)
    (w : World) :
  let r := acceptInvitation digest salt uid ouid email org code password w in
  mailer (snd r) = mailer w
  /\ Prisma.organization (prisma (snd r)) = Prisma.organization (prisma w)
  /\ redis (snd r)
     = match fst r with
       | Returned _ => delete (invite_key org email) (redis w)
       | _ => redis w
       end.
Proof.
  cbv zeta.
  destruct (stored_invite org email w) as [[invite|s]|] eqn:Hs.
  - destruct (verifies invite code) eqn:Hv.
    + rewrite (acceptInvitation_verified _ _ _ _ _ _ _ _ _ _ Hs Hv).
      unfold join_organization. unfold Prisma.user_create, Prisma.organizationUser_create,
        with_prisma.
      destruct (truthy_prop (prop invite "newuser")).
      all: case_split.
      all: cbn [fst snd prisma redis mailer Prisma.organization
                Prisma.with_user Prisma.with_organizationUser];
        repeat split; reflexivity.
    + erewrite acceptInvitation_rejects; [| |exact Hv].
      * repeat split; reflexivity.
      * rewrite Hs. reflexivity.
  - rewrite (acceptInvitation_unparseable _ _ _ _ _ _ _ _ _ _ Hs).
    repeat split; reflexivity.
  - erewrite acceptInvitation_rejects with (invite := JNull);
      [| |reflexivity].
    + repeat split; reflexivity.
    + rewrite Hs. reflexivity.
Qed.

(** X4: on the invitation of a new user, a call without password throws
    the error of [bcrypt.hash] before anything is written: no user, no
    membership, and the invitation is still stored. *)
Theorem acceptInvitation_null_password
    (digest : string -> nat -> string -> string)
    (salt uid ouid email org code : string) (w : World) (invite : json) :
  stored_invite org email w = Some (JsonText invite) ->
  verifies invite code = true ->
  truthy_prop (prop invite "newuser") = true ->
  acceptInvitation digest salt uid ouid email org code None w
  = (Thrown (Error "data and salt arguments required"), w).
Proof.
  intros Hs Hv Hn.
  rewrite (acceptInvitation_verified _ _ _ _ _ _ _ _ _ _ Hs Hv).
  unfold join_organization. rewrite Hn. reflexivity.
Qed.

Lemma acceptInvitation_null_password_witness :
  acceptInvitation digest0 "salt" "u2" "m2" "bob@x.io" "org1" "ABC123" None
    w_bob_invited
  = (Thrown (Error "data and salt arguments required"), w_bob_invited).
Proof.
  apply (acceptInvitation_null_password digest0 "salt" "u2" "m2" "bob@x.io"
           "org1" "ABC123" w_bob_invited
           (invite_payload "ABC123" "Bob" true ["dev"])).
  - vm_compute. reflexivity.
  - reflexivity.
  - reflexivity.
Defined.

(** X5: on the invitation of an existing user the password, the salt and
    the id offered for a new user play no part: the call does the same
    whatever they are. *)
Theorem acceptInvitation_existing_user_ignores_password
    (digest : string -> nat -> string -> string)
    (salt salt' uid uid' ouid email org code : string)
    (password password' : option string) (w : World) (invite : json) :
  stored_invite org email w = Some (JsonText invite) ->
  truthy_prop (prop invite "newuser") = false ->
  acceptInvitation digest salt uid ouid email org code password w
  = acceptInvitation digest salt' uid' ouid email org code password' w.
Proof.
  intros Hs Hn. destruct (verifies invite code) eqn:Hv.
  - rewrite !(acceptInvitation_verified _ _ _ _ _ _ _ _ _ _ Hs Hv).
    unfold join_organization. rewrite Hn. reflexivity.
  - rewrite !(acceptInvitation_rejects _ _ _ _ _ _ _ _ _ invite);
      try assumption; try (rewrite Hs; reflexivity).
    reflexivity.
Qed.

Lemma acceptInvitation_existing_user_ignores_password_witness :
  acceptInvitation digest0 "salt" "u2" "m2" "carl@x.io" "org1" "ABC123"
    (Some "hunter2") w_stale
  = acceptInvitation digest0 "pepper" "u3" "m2" "carl@x.io" "org1" "ABC123"
      None w_stale.
Proof.
  apply (acceptInvitation_existing_user_ignores_password digest0 "salt" "pepper"
           "u2" "u3" "m2" "carl@x.io" "org1" "ABC123" (Some "hunter2") None
           w_stale (invite_payload "ABC123" "Carl" false ["dev"])).
  - vm_compute. reflexivity.
  - reflexivity.
Defined.

(** X6: when the organization of a new user's invitation no longer exists,
    [acceptInvitation] has created the user before the membership is
    refused (P2003); the user row and the invitation stay, and every
    retry with a password stops at the unique email (P2002) without
    changing anything. *)
Theorem acceptInvitation_orphan_user
    (digest : string -> nat -> string -> string)
    (salt uid ouid email org code p : string) (w : World) (invite : json)
    (items : list json) (roles : list string) :
  stored_invite org email w = Some (JsonText invite) ->
  verifies invite code = true ->
  truthy_prop (prop invite "newuser") = true ->
  prop invite "roles" = Some (JArr items) ->
  role_names items = Some roles ->
  Prisma.user_by_id uid (prisma w) = None ->
  Prisma.user_by_email email (prisma w) = None ->
  Prisma.organizationUser_by_id ouid (prisma w) = None ->
  Prisma.organization_by_id org (prisma w) = None ->
  let w' :=
    with_prisma
      (Prisma.with_user (invited_user digest salt uid email p invite) (prisma w))
      w in
  acceptInvitation digest salt uid ouid email org code (Some p) w
  = (Thrown Prisma.P2003, w')
  /\ redis w' = redis w
  /\ (forall salt' uid' ouid' p',
         acceptInvitation digest salt' uid' ouid' email org code (Some p') w'
         = (Thrown Prisma.P2002, w')).
Proof.
  intros Hs Hv Hn Hroles Hnames Huid Hemail Houid Horg w'.
  split; [|split; [reflexivity|]].
  - rewrite (acceptInvitation_verified _ _ _ _ _ _ _ _ _ _ Hs Hv).
    unfold join_organization. rewrite Hn. unfold Prisma.user_create.
    cbn [invited_user User.id User.email]. rewrite Huid, Hemail.
    fold (invited_user digest salt uid email p invite).
    rewrite Hroles, Hnames. unfold Prisma.organizationUser_create.
    cbn [OrganizationUser.id OrganizationUser.userID
         OrganizationUser.organizationID with_prisma prisma].
    unfold Prisma.organizationUser_by_id, Prisma.user_by_id,
      Prisma.organization_by_id in *.
    cbn [Prisma.with_user Prisma.organizationUser Prisma.user
         Prisma.organization].
    rewrite Houid, Horg.
    destruct (List.find _ (Prisma.user (prisma w) ++ _)); reflexivity.
  - intros salt' uid' ouid' p'.
    assert (Hs' : stored_invite org email w' = Some (JsonText invite))
      by exact Hs.
    rewrite (acceptInvitation_verified _ _ _ _ _ _ _ _ _ _ Hs' Hv).
    unfold join_organization. rewrite Hn. unfold Prisma.user_create.
    assert (Hnow : Prisma.user_by_email email (prisma w')
                   = Some (invited_user digest salt uid email p invite)).
    { unfold Prisma.user_by_email in *. subst w'.
      cbn [with_prisma prisma Prisma.with_user Prisma.user].
      rewrite (find_app_none _ _ _ Hemail).
      cbn [List.find invited_user User.email].
      now rewrite String.eqb_refl. }
    cbn [invited_user User.id User.email]. rewrite Hnow.
    destruct (Prisma.user_by_id uid' (prisma w')); reflexivity.
Qed.

Lemma acceptInvitation_orphan_user_witness :
  fst (acceptInvitation digest0 "salt" "u2" "m2" "bob@x.io" "org9" "ABC123"
         (Some "hunter2") w_orphan_invite)
  = Thrown Prisma.P2003
  /\ Prisma.user_by_email "bob@x.io"
       (prisma (snd (acceptInvitation digest0 "salt" "u2" "m2" "bob@x.io"
                       "org9" "ABC123" (Some "hunter2") w_orphan_invite)))
     <> None.
Proof.
  destruct (acceptInvitation_orphan_user digest0 "salt" "u2" "m2" "bob@x.io"
              "org9" "ABC123" "hunter2" w_orphan_invite
              (invite_payload "ABC123" "Bob" true ["dev"]) [JStr "dev"] ["dev"])
    as (Hrun & _ & _); [vm_compute; reflexivity ..|].
  rewrite Hrun. split; [reflexivity|]. vm_compute. discriminate.
Defined.

(** ** Role labels: [assignRole] and [deleteRole] *)

Lemma assignRole_cases (userID org roleName : string) (w : World) :
  assignRole userID org roleName w
  = match Prisma.organizationUser_findFirst (member_of userID org) (prisma w) with
    | None => (Thrown (Error "user not present in organization"), w)
    | Some m =>
        (Returned true,
         with_roles (Prisma.role (prisma w)
                     ++ [{| Role.name := roleName;
                            Role.organizationUserID := OrganizationUser.id m |}])
                    w)
    end.
Proof.
  unfold assignRole. run.
  destruct (Prisma.organizationUser_findFirst (member_of userID org) (prisma w))
    as [m|] eqn:Hm; [|reflexivity].
  destruct (leaveOrganization_found _ _ _ _ Hm) as (_ & _ & _ & Hid).
  unfold Prisma.role_create. cbn [Role.organizationUserID].
  destruct (Prisma.organizationUser_by_id (OrganizationUser.id m) (prisma w));
    [reflexivity|contradiction].
Qed.

Lemma deleteRole_cases (userID org roleName : string) (w : World) :
  deleteRole userID org roleName w
  = match Prisma.organizationUser_findFirst (member_of userID org) (prisma w) with
    | None => (Thrown (Error "user not present in organization"), w)
    | Some m =>
        (Returned true,
         with_roles
           (List.filter
              (fun r => negb (labelled roleName (OrganizationUser.id m) r))
              (Prisma.role (prisma w)))
           w)
    end.
Proof.
  unfold deleteRole. run.
  destruct (Prisma.organizationUser_findFirst (member_of userID org) (prisma w));
    reflexivity.
Qed.

Lemma findFirst_with_roles (p : OrganizationUser.t -> bool)
    (roles : list Role.t) (w : World) :
  Prisma.organizationUser_findFirst p (prisma (with_roles roles w))
  = Prisma.organizationUser_findFirst p (prisma w).
Proof. reflexivity. Qed.

Lemma labelled_self (name owner : string) :
  labelled name owner
    {| Role.name := name; Role.organizationUserID := owner |} = true.
Proof.
  unfold labelled. cbn [Role.name Role.organizationUserID].
  now rewrite !String.eqb_refl.
Qed.

Lemma filter_app_list {A : Type} (p : A -> bool) (l l' : list A) :
  List.filter p (l ++ l') = List.filter p l ++ List.filter p l'.
Proof.
  induction l as [|a l IH]; [reflexivity|].
  cbn [List.filter app]. rewrite IH. now destruct (p a).
Qed.

Lemma filter_twice {A : Type} (p : A -> bool) (l : list A) :
  List.filter p (List.filter p l) = List.filter p l.
Proof.
  apply filter_keeps_all. intros x Hx. apply filter_In in Hx. tauto.
Qed.

(** X7: for a member, [assignRole] returns [true] and appends exactly one
    label with the given name to the labels of that membership, also when
    an equal label is already there (their number grows by one); the
    other tables, the key-value store and the outbox are unchanged. *)
Theorem assignRole_appends_one (userID org roleName : string) (w : World)
    (m : OrganizationUser.t) :
  Prisma.organizationUser_findFirst (member_of userID org) (prisma w) = Some m ->
  exists w',
    assignRole userID org roleName w = (Returned true, w')
    /\ Prisma.role (prisma w')
       = Prisma.role (prisma w)
         ++ [{| Role.name := roleName;
                Role.organizationUserID := OrganizationUser.id m |}]
    /\ length (List.filter (labelled roleName (OrganizationUser.id m))
                           (Prisma.role (prisma w')))
       = S (length (List.filter (labelled roleName (OrganizationUser.id m))
                                (Prisma.role (prisma w))))
    /\ Prisma.user (prisma w') = Prisma.user (prisma w)
    /\ Prisma.organization (prisma w') = Prisma.organization (prisma w)
    /\ Prisma.organizationUser (prisma w') = Prisma.organizationUser (prisma w)
    /\ redis w' = redis w /\ mailer w' = mailer w.
Proof.
  intros Hm. rewrite assignRole_cases, Hm. eexists. split; [reflexivity|].
  cbn [with_roles prisma redis mailer Prisma.role Prisma.user
       Prisma.organization Prisma.organizationUser].
  repeat split.
  rewrite filter_app_list, length_app. cbn [List.filter].
  rewrite labelled_self. cbn [length]. lia.
Qed.

Lemma assignRole_appends_one_witness :
  exists w',
    assignRole "u2" "org1" "dev" w_two_admins = (Returned true, w')
    /\ Prisma.role (prisma w')
       = [{| Role.name := "owner"; Role.organizationUserID := "m1" |};
          {| Role.name := "dev"; Role.organizationUserID := "m2" |};
          {| Role.name := "dev"; Role.organizationUserID := "m2" |}].
Proof.
  destruct (assignRole_appends_one "u2" "org1" "dev" w_two_admins bob_in_acme)
    as (w' & Hrun & Hroles & _); [reflexivity|].
  exists w'. split; [exact Hrun|exact Hroles].
Defined.

(** X8: for a member, [deleteRole] returns [true] and removes every label
    with the given name from the labels of that membership, however many
    there are; labels with another name or another owner stay, in their
    order, and nothing else changes. *)
Theorem deleteRole_removes_all (userID org roleName : string) (w : World)
    (m : OrganizationUser.t) :
  Prisma.organizationUser_findFirst (member_of userID org) (prisma w) = Some m ->
  exists w',
    deleteRole userID org roleName w = (Returned true, w')
    /\ (forall r,
           In r (Prisma.role (prisma w'))
           <-> In r (Prisma.role (prisma w))
               /\ ~ (Role.name r = roleName
                     /\ Role.organizationUserID r = OrganizationUser.id m))
    /\ Prisma.role (prisma w')
       = List.filter
           (fun r => negb (labelled roleName (OrganizationUser.id m) r))
           (Prisma.role (prisma w))
    /\ Prisma.user (prisma w') = Prisma.user (prisma w)
    /\ Prisma.organization (prisma w') = Prisma.organization (prisma w)
    /\ Prisma.organizationUser (prisma w') = Prisma.organizationUser (prisma w)
    /\ redis w' = redis w /\ mailer w' = mailer w.
Proof.
  intros Hm. rewrite deleteRole_cases, Hm. eexists. split; [reflexivity|].
  cbn [with_roles prisma redis mailer Prisma.role Prisma.user
       Prisma.organization Prisma.organizationUser].
  split; [|repeat split].
  intros r. rewrite filter_In. unfold labelled.
  rewrite negb_true_iff, andb_false_iff, <- !not_true_iff_false, !String.eqb_eq.
  split.
  - intros [Hin Hno]. split; [exact Hin|]. tauto.
  - intros [Hin Hno]. split; [exact Hin|].
    destruct (String.eqb_spec (Role.name r) roleName); [|tauto].
    destruct (String.eqb_spec (Role.organizationUserID r) (OrganizationUser.id m));
      tauto.
Qed.

Lemma deleteRole_removes_all_witness :
  exists w',
    deleteRole "u2" "org1" "dev" w_two_admins = (Returned true, w')
    /\ Prisma.role (prisma w')
       = [{| Role.name := "owner"; Role.organizationUserID := "m1" |}].
Proof.
  destruct (deleteRole_removes_all "u2" "org1" "dev" w_two_admins bob_in_acme)
    as (w' & Hrun & _ & Hroles & _); [reflexivity|].
  exists w'. split; [exact Hrun|]. rewrite Hroles. reflexivity.
Defined.

(** X9: [assignRole] twice with the same name followed by one [deleteRole]
    of that name leaves the role labels as one [deleteRole] on the
    original store leaves them: both copies are gone. *)
Theorem assignRole_twice_deleteRole (userID org roleName : string) (w : World)
    (m : OrganizationUser.t) :
  Prisma.organizationUser_findFirst (member_of userID org) (prisma w) = Some m ->
  exists w1 w2 w3,
    assignRole userID org roleName w = (Returned true, w1)
    /\ assignRole userID org roleName w1 = (Returned true, w2)
    /\ deleteRole userID org roleName w2 = (Returned true, w3)
    /\ w3 = snd (deleteRole userID org roleName w)
    /\ (forall r, In r (Prisma.role (prisma w3)) ->
                  labelled roleName (OrganizationUser.id m) r = false).
Proof.
  intros Hm.
  eexists. eexists. eexists.
  split; [rewrite assignRole_cases, Hm; reflexivity|].
  split; [rewrite assignRole_cases, findFirst_with_roles, Hm; reflexivity|].
  split; [rewrite deleteRole_cases, !findFirst_with_roles, Hm; reflexivity|].
  rewrite deleteRole_cases, Hm.
  cbn [snd with_roles prisma redis mailer Prisma.role Prisma.user
       Prisma.organization Prisma.organizationUser].
  rewrite !filter_app_list. cbn [List.filter].
  rewrite !labelled_self. cbn [negb]. rewrite !app_nil_r.
  split; [reflexivity|].
  intros r Hr. apply filter_In in Hr. destruct Hr as [_ Hr].
  now apply negb_true_iff in Hr.
Qed.

Lemma assignRole_twice_deleteRole_witness :
  exists w3,
    deleteRole "u1" "org1" "dev"
      (snd (assignRole "u1" "org1" "dev"
              (snd (assignRole "u1" "org1" "dev" w_two_admins))))
    = (Returned true, w3)
    /\ w3 = snd (deleteRole "u1" "org1" "dev" w_two_admins).
Proof.
  destruct (assignRole_twice_deleteRole "u1" "org1" "dev" w_two_admins
              ann_in_acme)
    as (w1 & w2 & w3 & H1 & H2 & H3 & H4 & _); [reflexivity|].
  exists w3. rewrite H1. cbn [snd]. rewrite H2. cbn [snd].
  split; [exact H3|exact H4].
Defined.

(** X10: a second [deleteRole] of the same name changes nothing. *)
Theorem deleteRole_idempotent (userID org roleName : string) (w : World) :
  deleteRole userID org roleName (snd (deleteRole userID org roleName w))
  = deleteRole userID org roleName w.
Proof.
  rewrite !deleteRole_cases.
  destruct (Prisma.organizationUser_findFirst (member_of userID org) (prisma w))
    as [m|] eqn:Hm; cbn [snd].
  - rewrite findFirst_with_roles, Hm.
    unfold with_roles. cbn [prisma redis mailer Prisma.role Prisma.user
                             Prisma.organization Prisma.organizationUser].
    now rewrite filter_twice.
  - now rewrite Hm.
Qed.

(** ** [deleteOrganization] and [leaveOrganization] *)

Lemma find_absent {A : Type} (p : A -> bool) (l : list A) :
  (forall x, In x l -> p x = false) -> List.find p l = None.
Proof.
  intros H. destruct (List.find p l) as [x|] eqn:E; [|reflexivity].
  apply find_some in E. destruct E as [Hin Hp].
  rewrite (H x Hin) in Hp. discriminate.
Qed.

Lemma deleteOrganization_cases (id : string) (w : World) :
  deleteOrganization id w
  = match Prisma.organization_by_id id (prisma w) with
    | None => (Thrown Prisma.P2025, w)
    | Some _ => (Returned true, without_organization id w)
    end.
Proof.
  unfold deleteOrganization, without_organization. run.
  unfold Prisma.organization_delete, with_prisma.
  destruct (Prisma.organization_by_id id (prisma w)); [reflexivity|].
  now destruct w.
Qed.

(** X11: [deleteOrganization] of an existing organization returns [true]
    and removes the organization, every membership under it and every
    role label owned by one of those memberships; the memberships of
    other organizations, the users, the pending invitations and the
    outbox are untouched. *)
Theorem deleteOrganization_cascade (id : string) (w : World)
    (o : Organization.t) :
  Prisma.organization_by_id id (prisma w) = Some o ->
  exists w',
    deleteOrganization id w = (Returned true, w')
    /\ Prisma.organization_by_id id (prisma w') = None
    /\ (forall o',
           In o' (Prisma.organization (prisma w'))
           <-> In o' (Prisma.organization (prisma w))
               /\ Organization.id o' <> id)
    /\ (forall m,
           In m (Prisma.organizationUser (prisma w'))
           <-> In m (Prisma.organizationUser (prisma w))
               /\ OrganizationUser.organizationID m <> id)
    /\ (forall r,
           In r (Prisma.role (prisma w'))
           <-> In r (Prisma.role (prisma w))
               /\ ~ (exists m,
                        In m (Prisma.organizationUser (prisma w))
                        /\ OrganizationUser.organizationID m = id
                        /\ OrganizationUser.id m = Role.organizationUserID r))
    /\ Prisma.user (prisma w') = Prisma.user (prisma w)
    /\ redis w' = redis w /\ mailer w' = mailer w.
Proof.
  intros Ho. rewrite deleteOrganization_cases, Ho.
  eexists. split; [reflexivity|].
  unfold without_organization, Prisma.organization_delete. rewrite Ho.
  cbn [with_prisma prisma redis mailer Prisma.user Prisma.organization
       Prisma.organizationUser Prisma.role].
  split; [|split; [|split; [|split; [|repeat split]]]].
  - unfold Prisma.organization_by_id. cbn [Prisma.organization].
    apply find_absent. intros o' Hin. apply filter_In in Hin.
    destruct Hin as [_ Hne]. now apply negb_true_iff in Hne.
  - intros o'. rewrite filter_In, negb_true_iff, String.eqb_neq. tauto.
  - intros m. rewrite filter_In, negb_true_iff, String.eqb_neq. tauto.
  - intros r. rewrite filter_In, negb_true_iff.
    rewrite <- not_true_iff_false, existsb_exists.
    split.
    + intros [Hin Hno]. split; [exact Hin|]. intros (m & Hm & Horg & Hid).
      apply Hno. exists (OrganizationUser.id m). split.
      * apply in_map. apply filter_In. split; [exact Hm|].
        now apply String.eqb_eq.
      * apply String.eqb_eq. now symmetry.
    + intros [Hin Hno]. split; [exact Hin|]. intros (x & Hx & Heq).
      apply Hno. apply in_map_iff in Hx. destruct Hx as (m & <- & Hm).
      apply filter_In in Hm. destruct Hm as [Hm Horg].
      exists m. split; [exact Hm|]. split.
      * now apply String.eqb_eq.
      * apply String.eqb_eq in Heq. now symmetry.
Qed.

Lemma deleteOrganization_cascade_witness :
  exists w',
    deleteOrganization "org1" w_two_admins = (Returned true, w')
    /\ Prisma.organization_by_id "org1" (prisma w') = None
    /\ Prisma.user (prisma w') = [ann; bob].
Proof.
  destruct (deleteOrganization_cascade "org1" w_two_admins acme)
    as (w' & Hrun & Hgone & _ & _ & _ & Husers & _); [reflexivity|].
  exists w'. split; [exact Hrun|]. split; [exact Hgone|exact Husers].
Defined.

Lemma find_filter_none {A : Type} (p q : A -> bool) (l : list A) :
  List.find p l = None -> List.find p (List.filter q l) = None.
Proof.
  intros H. apply find_absent. intros x Hx. apply filter_In in Hx.
  exact (find_none _ _ H x (proj1 Hx)).
Qed.

Lemma without_organization_store (id : string) (w : World)
    (o : Organization.t) :
  Prisma.organization_by_id id (prisma w) = Some o ->
  Prisma.organization_by_id id (prisma (without_organization id w)) = None
  /\ Prisma.user (prisma (without_organization id w)) = Prisma.user (prisma w)
  /\ redis (without_organization id w) = redis w.
Proof.
  intros Ho. unfold without_organization, Prisma.organization_delete.
  rewrite Ho. cbn [with_prisma prisma redis Prisma.user].
  split; [|split; reflexivity].
  unfold Prisma.organization_by_id. cbn [Prisma.organization].
  apply find_absent. intros o' Hin. apply filter_In in Hin.
  destruct Hin as [_ Hne]. now apply negb_true_iff in Hne.
Qed.

(** X12: an invitation outlives its organization. After
    [deleteOrganization] the invitation of an existing user is still
    stored, and [acceptInvitation] with the right code is refused by the
    store (P2003, no such organization) without changing anything, so the
    invitation is never consumed. *)
Theorem acceptInvitation_after_deleteOrganization
    (digest : string -> nat -> string -> string)
    (salt uid ouid email org code : string) (password : option string)
    (w : World) (invite : json) (u : User.t) (o : Organization.t)
    (items : list json) (roles : list string) :
  stored_invite org email w = Some (JsonText invite) ->
  verifies invite code = true ->
  truthy_prop (prop invite "newuser") = false ->
  prop invite "roles" = Some (JArr items) ->
  role_names items = Some roles ->
  Prisma.user_by_email email (prisma w) = Some u ->
  Prisma.organizationUser_by_id ouid (prisma w) = None ->
  Prisma.organization_by_id org (prisma w) = Some o ->
  let w' := without_organization org w in
  deleteOrganization org w = (Returned true, w')
  /\ stored_invite org email w' = Some (JsonText invite)
  /\ acceptInvitation digest salt uid ouid email org code password w'
     = (Thrown Prisma.P2003, w').
Proof.
  intros Hs Hv Hn Hroles Hnames Hu Houid Ho w'.
  destruct (without_organization_store org w o Ho) as (Hgone & Husers & Hredis).
  fold w' in Hgone, Husers, Hredis.
  assert (Hrun : deleteOrganization org w = (Returned true, w'))
    by now rewrite deleteOrganization_cases, Ho.
  assert (Hs' : stored_invite org email w' = Some (JsonText invite)).
  { unfold stored_invite in *. now rewrite Hredis. }
  split; [exact Hrun|]. split; [exact Hs'|].
  rewrite (acceptInvitation_verified _ _ _ _ _ _ _ _ _ _ Hs' Hv).
  unfold join_organization. rewrite Hn.
  assert (Hu' : Prisma.user_by_email email (prisma w') = Some u).
  { unfold Prisma.user_by_email in *. now rewrite Husers. }
  rewrite Hu', Hroles, Hnames.
  unfold Prisma.organizationUser_create.
  cbn [OrganizationUser.id OrganizationUser.userID
       OrganizationUser.organizationID].
  rewrite Hgone.
  assert (Houid' : Prisma.organizationUser_by_id ouid (prisma w') = None).
  { subst w'. unfold without_organization, Prisma.organization_delete.
    rewrite Ho. unfold Prisma.organizationUser_by_id in *.
    cbn [with_prisma prisma Prisma.organizationUser].
    now apply find_filter_none. }
  rewrite Houid'.
  destruct (Prisma.user_by_id (User.id u) (prisma w')); now destruct w'.
Qed.

Lemma acceptInvitation_after_deleteOrganization_witness :
  acceptInvitation digest0 "salt" "u9" "m9" "carl@x.io" "org1" "ABC123" None
    (without_organization "org1" w_carl_invited)
  = (Thrown Prisma.P2003, without_organization "org1" w_carl_invited).
Proof.
  apply (acceptInvitation_after_deleteOrganization digest0 "salt" "u9" "m9"
           "carl@x.io" "org1" "ABC123" None w_carl_invited
           (invite_payload "ABC123" "Carl" false ["dev"]) carl acme
           [JStr "dev"] ["dev"]); vm_compute; reflexivity.
Defined.

Lemma unique_key_in {A : Type} (f : A -> string) (l : list A) (x y : A) :
  List.NoDup (map f l) -> In x l -> In y l -> f x = f y -> x = y.
Proof.
  induction l as [|a l IH]; intros Hnd Hx Hy E; [contradiction|].
  inversion Hnd as [|? ? Hnotin Hnd']; subst.
  destruct Hx as [->|Hx], Hy as [->|Hy].
  - reflexivity.
  - exfalso. apply Hnotin. rewrite E. now apply in_map.
  - exfalso. apply Hnotin. rewrite <- E. now apply in_map.
  - now apply IH.
Qed.

(** X13: a member who is not an admin always leaves: the call returns
    [true] whatever the number of admins, exactly that membership row is
    removed, the role labels it owned are removed with it, the labels of
    the other memberships stay, and the organization keeps all its
    admins. Membership ids are unique. *)
Theorem leaveOrganization_member (userID org : string) (w : World)
    (m : OrganizationUser.t) :
  unique_membership_ids (prisma w) ->
  Prisma.organizationUser_findFirst (member_of userID org) (prisma w) = Some m ->
  OrganizationUser.isAdmin m = false ->
  leaveOrganization userID org w = (Returned true, without m w)
  /\ (forall m',
         In m' (Prisma.organizationUser (prisma (without m w)))
         <-> In m' (Prisma.organizationUser (prisma w)) /\ m' <> m)
  /\ (forall r,
         In r (Prisma.role (prisma (without m w)))
         <-> In r (Prisma.role (prisma w))
             /\ Role.organizationUserID r <> OrganizationUser.id m)
  /\ (forall o, length (admins o (prisma (without m w)))
                = length (admins o (prisma w))).
Proof.
  intros Hnd Hm Hadmin. rewrite leaveOrganization_cases, Hm, Hadmin.
  cbn [andb]. split; [reflexivity|].
  destruct (leaveOrganization_found _ _ _ _ Hm) as (Hin & _ & _ & _).
  split; [|split].
  - intros m'. unfold without. cbn [prisma Prisma.organizationUser].
    rewrite filter_In, negb_true_iff, String.eqb_neq. split.
    + intros [Hin' Hne]. split; [exact Hin'|]. intros ->. now apply Hne.
    + intros [Hin' Hne]. split; [exact Hin'|]. intros E. apply Hne.
      exact (unique_key_in OrganizationUser.id _ m' m Hnd Hin' Hin E).
  - intros r. unfold without. cbn [prisma Prisma.role].
    rewrite filter_In, negb_true_iff, String.eqb_neq. tauto.
  - intros o. pose proof (admins_without o w m Hnd Hin) as Hlen.
    unfold admin_of in Hlen. rewrite Hadmin in Hlen. cbn [andb] in Hlen. lia.
Qed.

Lemma leaveOrganization_member_witness :
  leaveOrganization "u4" "org1" w_with_member
  = (Returned true, without dan_in_acme w_with_member)
  /\ Prisma.role (prisma (without dan_in_acme w_with_member))
     = [{| Role.name := "owner"; Role.organizationUserID := "m1" |}].
Proof.
  destruct (leaveOrganization_member "u4" "org1" w_with_member dan_in_acme)
    as (Hrun & _).
  - vm_compute. repeat constructor; simpl; intuition discriminate.
  - reflexivity.
  - reflexivity.
  - split; [exact Hrun|reflexivity].
Defined.

(** ** [inviteUser]: what it writes *)


(** X15: a second [inviteUser] for the same organization and email
    replaces the stored invitation: the key then holds the second code,
    and [acceptInvitation] with the first code fails verification and
    changes nothing. Two emails have been sent. *)
Theorem inviteUser_overwrites (keys : Keys)
    (digest : string -> nat -> string -> string)
    (entropy1 entropy2 : list nat)
    (salt uid ouid email name1 name2 org code1 code2 : string)
    (roles1 roles2 : list string) (password : option string)
    (w w1 w2 : World) :
  inviteUser keys entropy1 email name1 org roles1 w = (Returned true, w1) ->
  inviteUser keys entropy2 email name2 org roles2 w1 = (Returned true, w2) ->
  inviteUser_code entropy1 = Returned code1 ->
  inviteUser_code entropy2 = Returned code2 ->
  code1 <> code2 ->
  (exists newUser,
      stored_invite org email w2
      = Some (JsonText (invite_payload code2 name2 newUser roles2)))
  /\ acceptInvitation digest salt uid ouid email org code1 password w2
     = (Thrown unable_to_verify, w2)
  /\ length (mailer w2) = length (mailer w) + 2.
Proof.
  intros H1 H2 Hc1 Hc2 Hne.
  destruct (inviteUser_returned _ _ _ _ _ _ _ _ H1)
    as (o1 & c1 & _ & Hc1' & Hw1).
  destruct (inviteUser_returned _ _ _ _ _ _ _ _ H2)
    as (o2 & c2 & _ & Hc2' & Hw2).
  rewrite Hc1 in Hc1'. injection Hc1' as <-.
  rewrite Hc2 in Hc2'. injection Hc2' as <-.
  assert (Hm1 : length (mailer w1) = length (mailer w) + 1).
  { destruct (Prisma.user_by_email email (prisma w));
      [destruct Hw1 as [_ ->]|subst w1];
      unfold invited; cbn [mailer]; rewrite length_app; reflexivity. }
  assert (Hstored : exists newUser,
             stored_invite org email w2
             = Some (JsonText (invite_payload code2 name2 newUser roles2))
             /\ length (mailer w2) = length (mailer w1) + 1).
  { destruct (Prisma.user_by_email email (prisma w1));
      [destruct Hw2 as [_ ->]; exists false|subst w2; exists true];
      unfold stored_invite, invited; cbn [redis mailer];
      rewrite lookup_insert_eq, length_app; split; reflexivity. }
  destruct Hstored as (newUser & Hstored & Hm2).
  split; [now exists newUser|]. split; [|lia].
  apply acceptInvitation_rejects
    with (invite := invite_payload code2 name2 newUser roles2).
  - rewrite Hstored. reflexivity.
  - unfold verifies, invite_payload.
    cbn [truthy prop assoc String.eqb Ascii.eqb Bool.eqb andb truthy_prop
         strict_eq_string].
    assert (E : String.eqb code2 code1 = false)
      by (apply String.eqb_neq; congruence).
    rewrite E. now rewrite andb_false_r.
Qed.

Lemma inviteUser_overwrites_witness :
  acceptInvitation digest0 "salt" "u2" "m2" "bob@x.io" "org1" "ABC123"
    (Some "hunter2")
    (snd (inviteUser keys0 [20; 21; 22; 4; 5; 6] "bob@x.io" "Bob" "org1" []
            w_bob_invited))
  = (Thrown unable_to_verify,
     snd (inviteUser keys0 [20; 21; 22; 4; 5; 6] "bob@x.io" "Bob" "org1" []
            w_bob_invited)).
Proof.
  apply (inviteUser_overwrites keys0 digest0 [10; 11; 12; 1; 2; 3]
           [20; 21; 22; 4; 5; 6] "salt" "u2" "m2" "bob@x.io" "Bob" "Bob" "org1"
           "ABC123" "KLM456" ["dev"] [] (Some "hunter2") w0 w_bob_invited).
  - vm_compute. reflexivity.
  - vm_compute. reflexivity.
  - reflexivity.
  - reflexivity.
  - discriminate.
Defined.

(** ** What the invitation carries to [acceptInvitation] *)

(** X16: the name and the roles given to [inviteUser] come back out of
    the stored invitation. After invite and accept, the role labels of
    the new membership are the invited roles, in order; a new user gets
    the digest of the password, the invited name as first name, an empty
    last name and the status "verified"; an existing user's row is left
    as it is. No email is sent by the accept. *)
Theorem invite_accept_carries_payload (keys : Keys)
    (digest : string -> nat -> string -> string) (entropy : list nat)
    (salt uid ouid email name org code p : string) (roles : list string)
    (w w1 : World) :
  inviteUser keys entropy email name org roles w = (Returned true, w1) ->
  inviteUser_code entropy = Returned code ->
  Prisma.user_by_id uid (prisma w) = None ->
  Prisma.organizationUser_by_id ouid (prisma w) = None ->
  exists w2,
    acceptInvitation digest salt uid ouid email org code (Some p) w1
    = (Returned true, w2)
    /\ Prisma.role (prisma w2) = Prisma.role (prisma w) ++ labels ouid roles
    /\ Prisma.user (prisma w2)
       = match Prisma.user_by_email email (prisma w) with
         | Some _ => Prisma.user (prisma w)
         | None =>
             Prisma.user (prisma w)
             ++ [{| User.id := uid;
                    User.email := email;
                    User.authData :=
                      JObj [("password", JStr (digest p 10 salt))];
                    User.profileData :=
                      JObj [("firstname", JStr name);
                            ("lastname", JStr EmptyString);
                            ("status", JStr "verified")] |}]
         end
    /\ mailer w2 = mailer w1.
Proof.
  intros Hinvite Hcode Huid Houid.
  destruct (inviteUser_returned _ _ _ _ _ _ _ _ Hinvite)
    as (o & code' & Horg & Hcode' & Huser).
  rewrite Hcode in Hcode'. injection Hcode' as <-.
  pose proof (inviteUser_code_outcome entropy) as Hshape.
  rewrite Hcode in Hshape. destruct Hshape as (Hlen & _ & _).
  destruct (Prisma.user_by_email email (prisma w)) as [u|] eqn:Hu.
  - destruct Huser as [_ ->].
    assert (Hs : stored_invite org email
                   (invited keys o email name org false code roles w)
                 = Some (JsonText (invite_payload code name false roles))).
    { unfold stored_invite, invited. cbn [redis]. now rewrite lookup_insert_eq. }
    rewrite (acceptInvitation_verified _ _ _ _ _ _ _ _ _ _ Hs
               (verifies_invite_payload _ _ _ _ Hlen)).
    unfold join_organization.
    cbn [invite_payload prop assoc String.eqb Ascii.eqb Bool.eqb truthy_prop
         truthy].
    change (prisma (invited keys o email name org false code roles w))
      with (prisma w).
    rewrite Hu, role_names_strings.
    unfold Prisma.organizationUser_create.
    cbn [OrganizationUser.id OrganizationUser.userID
         OrganizationUser.organizationID].
    rewrite Houid, Horg.
    assert (Hbyid : exists u', Prisma.user_by_id (User.id u) (prisma w) = Some u').
    { apply find_some in Hu. destruct Hu as [Hin _].
      apply (find_present _ _ u Hin). apply String.eqb_refl. }
    destruct Hbyid as [u' ->].
    eexists. split; [reflexivity|].
    cbn [prisma mailer Prisma.with_organizationUser Prisma.role Prisma.user
         OrganizationUser.id].
    repeat split.
  - subst w1.
    assert (Hs : stored_invite org email
                   (invited keys o email name org true code roles w)
                 = Some (JsonText (invite_payload code name true roles))).
    { unfold stored_invite, invited. cbn [redis]. now rewrite lookup_insert_eq. }
    rewrite (acceptInvitation_verified _ _ _ _ _ _ _ _ _ _ Hs
               (verifies_invite_payload _ _ _ _ Hlen)).
    unfold join_organization.
    cbn [invite_payload prop assoc String.eqb Ascii.eqb Bool.eqb truthy_prop
         truthy].
    unfold Prisma.user_create.
    change (prisma (invited keys o email name org true code roles w))
      with (prisma w).
    cbn [invited_user User.id User.email]. rewrite Huid, Hu.
    rewrite role_names_strings.
    unfold Prisma.organizationUser_create.
    cbn [OrganizationUser.id OrganizationUser.userID
         OrganizationUser.organizationID with_prisma prisma].
    unfold Prisma.organizationUser_by_id, Prisma.user_by_id,
      Prisma.organization_by_id in *.
    cbn [Prisma.with_user Prisma.organizationUser Prisma.user
         Prisma.organization].
    rewrite Houid, Horg, (find_app_none _ _ _ Huid).
    cbn [List.find User.id]. rewrite String.eqb_refl.
    eexists. split; [reflexivity|].
    cbn [prisma mailer Prisma.with_organizationUser Prisma.with_user
         Prisma.role Prisma.user OrganizationUser.id object prop assoc
         invite_payload String.eqb Ascii.eqb Bool.eqb].
    repeat split.
Qed.

Lemma invite_accept_carries_payload_witness :
  exists w2,
    acceptInvitation digest0 "salt" "u2" "m2" "bob@x.io" "org1" "ABC123"
      (Some "hunter2") w_bob_invited
    = (Returned true, w2)
    /\ Prisma.role (prisma w2)
       = [{| Role.name := "dev"; Role.organizationUserID := "m2" |}].
Proof.
  destruct (invite_accept_carries_payload keys0 digest0 [10; 11; 12; 1; 2; 3]
              "salt" "u2" "m2" "bob@x.io" "Bob" "org1" "ABC123" "hunter2"
              ["dev"] w0 w_bob_invited)
    as (w2 & Hrun & Hroles & _); [vm_compute; reflexivity ..|].
  exists w2. split; [exact Hrun|exact Hroles].
Defined.

(** ** [addUser] and [fetchOrganizationUsers] *)

(** X17: [addUser] is all or nothing. It returns the new membership
    exactly when the email is unused, the organization exists and the
    generated ids are unused; then one user row (with the given email and
    first name), one non-admin membership and one role label per given
    name, in order, are appended. In every other case it throws and the
    world is unchanged. *)
Theorem addUser_all_or_nothing (uid ouid email name password org : string)
    (roles : list string) (w : World) :
  let m := {| OrganizationUser.id := ouid;
              OrganizationUser.userID := uid;
              OrganizationUser.organizationID := org;
              OrganizationUser.isAdmin := false |} in
  let r := addUser uid ouid email name password org roles w in
  match fst r with
  | Returned m' =>
      m' = m
      /\ Prisma.user_by_email email (prisma w) = None
      /\ Prisma.organization_by_id org (prisma w) <> None
      /\ Prisma.user (prisma (snd r))
         = Prisma.user (prisma w)
           ++ [{| User.id := uid;
                  User.email := email;
                  User.authData := JObj [("password", JStr password)];
                  User.profileData := JObj [("firstname", JStr name)] |}]
      /\ Prisma.organizationUser (prisma (snd r))
         = Prisma.organizationUser (prisma w) ++ [m]
      /\ Prisma.role (prisma (snd r)) = Prisma.role (prisma w) ++ labels ouid roles
      /\ Prisma.organization (prisma (snd r)) = Prisma.organization (prisma w)
      /\ redis (snd r) = redis w /\ mailer (snd r) = mailer w
  | Thrown _ =>
      snd r = w
      /\ (Prisma.user_by_id uid (prisma w) <> None
          \/ Prisma.user_by_email email (prisma w) <> None
          \/ Prisma.organization_by_id org (prisma w) = None
          \/ Prisma.organizationUser_by_id ouid (prisma w) <> None)
  | Unfinished => False
  end.
Proof.
  cbv zeta. unfold addUser. run.
  unfold Prisma.organizationUser_create_with_user, Prisma.user_create.
  cbn [User.id User.email OrganizationUser.id OrganizationUser.organizationID].
  destruct (Prisma.user_by_id uid (prisma w)) eqn:H1.
  { cbn. split; [now destruct w|]. left. discriminate. }
  destruct (Prisma.user_by_email email (prisma w)) eqn:H2.
  { cbn. split; [now destruct w|]. right. left. discriminate. }
  change (Prisma.organization_by_id org (Prisma.with_user ?u (prisma w)))
    with (Prisma.organization_by_id org (prisma w)).
  change (Prisma.organizationUser_by_id ouid (Prisma.with_user ?u (prisma w)))
    with (Prisma.organizationUser_by_id ouid (prisma w)).
  destruct (Prisma.organization_by_id org (prisma w)) eqn:H3.
  - destruct (Prisma.organizationUser_by_id ouid (prisma w)) eqn:H4.
    + cbn. split; [now destruct w|]. right. right. right. discriminate.
    + cbn [fst snd prisma redis mailer Prisma.with_organizationUser
           Prisma.with_user Prisma.user Prisma.organization
           Prisma.organizationUser Prisma.role OrganizationUser.id].
      repeat split. discriminate.
  - cbn. split; [now destruct w|]. right. right. left. reflexivity.
Qed.

Lemma user_select_found (db : Prisma.t) (id : string) :
  Prisma.user_by_id id db <> None ->
  exists u,
    In u (Prisma.user db) /\ User.id u = id
    /\ (fun u => {| select_email := User.email u;
                    select_profileData := User.profileData u |})
         <$> Prisma.user_by_id id db
       = Some {| select_email := User.email u;
                 select_profileData := User.profileData u |}.
Proof.
  intros H. destruct (Prisma.user_by_id id db) as [u|] eqn:E; [|contradiction].
  exists u. apply find_some in E. destruct E as [Hin Hid].
  apply String.eqb_eq in Hid. repeat split; assumption.
Qed.

(** X18: when every membership points to a user of the table,
    [fetchOrganizationUsers] returns no row with a null user: each row is
    a membership of the requested organization together with the email
    and profile data of the user its [userID] names. *)
Theorem fetchOrganizationUsers_rows (organizationID : string) (w : World) :
  memberships_have_users (prisma w) ->
  exists rows,
    fetchOrganizationUsers organizationID w = (Returned rows, w)
    /\ forall row, In row rows ->
         In (membership row) (Prisma.organizationUser (prisma w))
         /\ OrganizationUser.organizationID (membership row) = organizationID
         /\ exists u,
              In u (Prisma.user (prisma w))
              /\ User.id u = OrganizationUser.userID (membership row)
              /\ include_user row
                 = Some {| select_email := User.email u;
                           select_profileData := User.profileData u |}.
Proof.
  intros Hfk. unfold fetchOrganizationUsers. run.
  eexists. split; [reflexivity|].
  intros row Hrow. apply in_map_iff in Hrow. destruct Hrow as (m & <- & Hm).
  unfold Prisma.organizationUser_findMany in Hm. apply filter_In in Hm.
  destruct Hm as [Hin Horg]. apply String.eqb_eq in Horg.
  cbn [membership include_user]. split; [exact Hin|]. split; [exact Horg|].
  destruct (user_select_found (prisma w) (OrganizationUser.userID m) (Hfk m Hin))
    as (u & Hu & Hid & Hsel).
  exists u. repeat split; assumption.
Qed.

Lemma fetchOrganizationUsers_rows_witness :
  exists rows,
    fetchOrganizationUsers "org1" w_two_admins = (Returned rows, w_two_admins)
    /\ length rows = 2.
Proof.
  destruct (fetchOrganizationUsers_rows "org1" w_two_admins) as (rows & Hrun & _).
  - intros m Hm. simpl in Hm. destruct Hm as [<-|[<-|[]]]; discriminate.
  - exists rows. split; [exact Hrun|].
    assert (E : fst (fetchOrganizationUsers "org1" w_two_admins) = Returned rows)
      by now rewrite Hrun.
    vm_compute in E. injection E as <-. reflexivity.
Defined.

(** X19: for an organization id that no membership refers to (an unknown
    or a deleted organization, or one without members) the call returns
    the empty list; it does not throw. *)
Theorem fetchOrganizationUsers_unknown (organizationID : string) (w : World) :
  memberships_have_organizations (prisma w) ->
  Prisma.organization_by_id organizationID (prisma w) = None ->
  fetchOrganizationUsers organizationID w = (Returned [], w).
Proof.
  intros Hfk Hnone. unfold fetchOrganizationUsers. run.
  unfold Prisma.organizationUser_findMany.
  assert (E : List.filter
                (fun m => String.eqb (OrganizationUser.organizationID m)
                                     organizationID)
                (Prisma.organizationUser (prisma w)) = []).
  { destruct (List.filter _ (Prisma.organizationUser (prisma w)))
      as [|m l] eqn:E; [reflexivity|].
    assert (Hm : In m (m :: l)) by now left.
    rewrite <- E in Hm. apply filter_In in Hm. destruct Hm as [Hin Horg].
    apply String.eqb_eq in Horg. specialize (Hfk m Hin).
    rewrite Horg, Hnone in Hfk. contradiction. }
  rewrite E. reflexivity.
Qed.

Lemma fetchOrganizationUsers_unknown_witness :
  fetchOrganizationUsers "org7" w_two_admins = (Returned [], w_two_admins).
Proof.
  apply fetchOrganizationUsers_unknown.
  - intros m Hm. simpl in Hm. destruct Hm as [<-|[<-|[]]]; discriminate.
  - reflexivity.
Defined.

(** ** Invariants of the relational store *)

Lemma prisma_write_prisma {A : Type} (q : Prisma.t -> Outcome A * Prisma.t)
    (w : World) :
  prisma (snd (prisma_write q w)) = snd (q (prisma w)).
Proof. unfold prisma_write. now destruct (q (prisma w)). Qed.

(** A property of the store that every write of the client keeps, and
    that [leaveOrganization] keeps, is kept by every call. *)
Lemma after_invariant (keys : Keys)
    (digest : string -> nat -> string -> string) (I : Prisma.t -> Prop) :
  (forall u db, I db -> I (snd (Prisma.user_create u db))) ->
  (forall m roles db,
      OrganizationUser.isAdmin m = false ->
      I db -> I (snd (Prisma.organizationUser_create m roles db))) ->
  (forall u m roles db,
      OrganizationUser.isAdmin m = false ->
      OrganizationUser.userID m = User.id u ->
      I db -> I (snd (Prisma.organizationUser_create_with_user u m roles db))) ->
  (forall o m db,
      OrganizationUser.isAdmin m = true ->
      OrganizationUser.organizationID m = Organization.id o ->
      I db -> I (snd (Prisma.organizationUser_create_with_organization o m db))) ->
  (forall r db, I db -> I (snd (Prisma.role_create r db))) ->
  (forall name owner db, I db -> I (snd (Prisma.role_deleteMany name owner db))) ->
  (forall id db, I db -> I (snd (Prisma.organization_delete id db))) ->
  (forall userID org w,
      I (prisma w) -> I (prisma (snd (leaveOrganization userID org w)))) ->
  forall c w, I (prisma w) -> I (prisma (after keys digest c w)).
Proof.
  intros Huser Hmember Hadd Hcreate Hrole Hunrole Hdelete Hleave c w HI.
  destruct c; cbn [after].
  - (* addUser *)
    unfold addUser, bind, ret.
    match goal with
    | |- context [prisma_write ?q w] =>
        pose proof (prisma_write_prisma q w) as E;
        destruct (prisma_write q w) as [[?|?|] w']; cbn [snd] in *;
        rewrite E; now apply Hadd
    end.
  - (* inviteUser *)
    unfold inviteUser. run.
    destruct (Prisma.organization_by_id organizationID (prisma w));
      [|exact HI].
    destruct (Prisma.user_by_email email (prisma w)).
    + destruct (Prisma.organizationUser_findFirst _ (prisma w)); [exact HI|].
      destruct (inviteUser_code entropy); exact HI.
    + destruct (inviteUser_code entropy); exact HI.
  - (* acceptInvitation *)
    destruct (stored_invite organizationID email w) as [[invite|s]|] eqn:Hs.
    + destruct (verifies invite code) eqn:Hv.
      * rewrite (acceptInvitation_verified _ _ _ _ _ _ _ _ _ _ Hs Hv).
        assert (Hk : forall (user : option User.t) (w' : World),
                   I (prisma w') ->
                   I (prisma (snd (join_organization invite
                                     new_organizationUserID email organizationID
                                     user w')))).
        { intros user w' HI'. unfold join_organization.
          destruct user as [user|]; [|exact HI'].
          destruct (prop invite "roles") as [[]|]; try exact HI'.
          destruct (role_names items) as [roles|]; [|exact HI'].
          pose proof (Hmember
                        {| OrganizationUser.id := new_organizationUserID;
                           OrganizationUser.userID := User.id user;
                           OrganizationUser.organizationID := organizationID;
                           OrganizationUser.isAdmin := false |}
                        roles (prisma w') eq_refl HI') as H.
          destruct (Prisma.organizationUser_create _ roles (prisma w'))
            as [[?|?|] db]; exact H. }
        destruct (truthy_prop (prop invite "newuser")).
        -- destruct password as [p|]; [|exact HI].
           pose proof (Huser (invited_user digest salt new_userID email p invite)
                             (prisma w) HI) as H.
           destruct (Prisma.user_create _ (prisma w)) as [[created|e|] db];
             try exact H.
           apply Hk. exact H.
        -- apply Hk. exact HI.
      * erewrite acceptInvitation_rejects; [exact HI| |exact Hv].
        rewrite Hs. reflexivity.
    + rewrite (acceptInvitation_unparseable _ _ _ _ _ _ _ _ _ _ Hs). exact HI.
    + erewrite acceptInvitation_rejects with (invite := JNull);
        [exact HI| |reflexivity].
      rewrite Hs. reflexivity.
  - (* fetchOrganizationUsers *)
    exact HI.
  - (* createOrganization *)
    unfold createOrganization, bind, ret.
    match goal with
    | |- context [prisma_write ?q w] =>
        pose proof (prisma_write_prisma q w) as E;
        destruct (prisma_write q w) as [[?|?|] w']; cbn [snd] in *;
        rewrite E; now apply Hcreate
    end.
  - (* assignRole *)
    unfold assignRole, bind, ret, prisma_read, throw.
    destruct (Prisma.organizationUser_findFirst _ (prisma w)); [|exact HI].
    match goal with
    | |- context [prisma_write ?q w] =>
        pose proof (prisma_write_prisma q w) as E;
        destruct (prisma_write q w) as [[?|?|] w']; cbn [snd] in *;
        rewrite E; now apply Hrole
    end.
  - (* deleteRole *)
    unfold deleteRole, bind, ret, prisma_read, throw.
    destruct (Prisma.organizationUser_findFirst _ (prisma w)); [|exact HI].
    match goal with
    | |- context [prisma_write ?q w] =>
        pose proof (prisma_write_prisma q w) as E;
        destruct (prisma_write q w) as [[?|?|] w']; cbn [snd] in *;
        rewrite E; now apply Hunrole
    end.
  - (* leaveOrganization *)
    now apply Hleave.
  - (* deleteOrganization *)
    unfold deleteOrganization, bind, ret.
    match goal with
    | |- context [prisma_write ?q w] =>
        pose proof (prisma_write_prisma q w) as E;
        destruct (prisma_write q w) as [[?|?|] w']; cbn [snd] in *;
        rewrite E; now apply Hdelete
    end.
Qed.

Lemma find_key_iff {A : Type} (f : A -> string) (k : string) (l : list A) :
  List.find (fun y => String.eqb (f y) k) l <> None <-> In k (map f l).
Proof.
  split.
  - intros H. destruct (List.find _ l) as [x|] eqn:E; [|contradiction].
    apply find_some in E. destruct E as [Hin Hk]. apply String.eqb_eq in Hk.
    rewrite <- Hk. now apply in_map.
  - intros Hin E. apply in_map_iff in Hin. destruct Hin as (x & Hk & Hx).
    pose proof (find_none _ _ E x Hx) as N. cbv beta in N.
    rewrite Hk, String.eqb_refl in N. discriminate.
Qed.

Lemma find_key_none {A : Type} (f : A -> string) (k : string) (l : list A) :
  List.find (fun y => String.eqb (f y) k) l = None -> ~ In k (map f l).
Proof. intros E Hin. now apply (find_key_iff f k l) in Hin. Qed.

Lemma NoDup_map_snoc {A : Type} (f : A -> string) (l : list A) (x : A) :
  List.NoDup (map f l) -> ~ In (f x) (map f l) ->
  List.NoDup (map f (l ++ [x])).
Proof.
  induction l as [|a l IH]; intros Hnd Hx.
  - cbn. constructor; [tauto|constructor].
  - inversion Hnd as [|? ? Hnotin Hnd']; subst. cbn [map app].
    constructor.
    + rewrite map_app, in_app_iff. cbn [map In]. intros [H|[H|[]]].
      * now apply Hnotin.
      * apply Hx. cbn [map In]. left. now symmetry.
    + apply IH; [exact Hnd'|]. intros H. apply Hx. cbn [map In]. now right.
Qed.

Lemma NoDup_map_filter {A : Type} (f : A -> string) (q : A -> bool)
    (l : list A) :
  List.NoDup (map f l) -> List.NoDup (map f (List.filter q l)).
Proof.
  induction l as [|a l IH]; intros Hnd; [constructor|].
  inversion Hnd as [|? ? Hnotin Hnd']; subst. cbn [List.filter].
  destruct (q a); [|now apply IH].
  cbn [map]. constructor; [|now apply IH].
  intros H. apply Hnotin. apply in_map_iff in H. destruct H as (x & E & Hx).
  apply filter_In in Hx. rewrite <- E. apply in_map. tauto.
Qed.

Lemma in_map_snoc {A : Type} (f : A -> string) (k : string) (l : list A) (x : A) :
  In k (map f l) -> In k (map f (l ++ [x])).
Proof. intros H. rewrite map_app, in_app_iff. now left. Qed.

(** The references of the store, read as membership in a key column. *)
Lemma well_formed_intro (db : Prisma.t) :
  List.NoDup (map User.id (Prisma.user db)) ->
  List.NoDup (map User.email (Prisma.user db)) ->
  List.NoDup (map Organization.id (Prisma.organization db)) ->
  List.NoDup (map Organization.identifier (Prisma.organization db)) ->
  List.NoDup (map OrganizationUser.id (Prisma.organizationUser db)) ->
  (forall m, In m (Prisma.organizationUser db) ->
             In (OrganizationUser.userID m) (map User.id (Prisma.user db))) ->
  (forall m, In m (Prisma.organizationUser db) ->
             In (OrganizationUser.organizationID m)
                (map Organization.id (Prisma.organization db))) ->
  (forall r, In r (Prisma.role db) ->
             In (Role.organizationUserID r)
                (map OrganizationUser.id (Prisma.organizationUser db))) ->
  well_formed db.
Proof.
  intros H1 H2 H3 H4 H5 H6 H7 H8. constructor; try assumption.
  - intros m Hm. apply find_key_iff. now apply H6.
  - intros m Hm. apply find_key_iff. now apply H7.
  - intros r Hr. apply find_key_iff. now apply H8.
Qed.

Lemma well_formed_elim (db : Prisma.t) :
  well_formed db ->
  List.NoDup (map User.id (Prisma.user db))
  /\ List.NoDup (map User.email (Prisma.user db))
  /\ List.NoDup (map Organization.id (Prisma.organization db))
  /\ List.NoDup (map Organization.identifier (Prisma.organization db))
  /\ List.NoDup (map OrganizationUser.id (Prisma.organizationUser db))
  /\ (forall m, In m (Prisma.organizationUser db) ->
                In (OrganizationUser.userID m) (map User.id (Prisma.user db)))
  /\ (forall m, In m (Prisma.organizationUser db) ->
                In (OrganizationUser.organizationID m)
                   (map Organization.id (Prisma.organization db)))
  /\ (forall r, In r (Prisma.role db) ->
                In (Role.organizationUserID r)
                   (map OrganizationUser.id (Prisma.organizationUser db))).
Proof.
  intros [H1 H2 H3 H4 H5 H6 H7 H8]. repeat split; try assumption.
  - intros m Hm. apply find_key_iff. now apply H6.
  - intros m Hm. apply find_key_iff. now apply H7.
  - intros r Hr. apply find_key_iff. now apply H8.
Qed.

Lemma well_formed_with_user (u : User.t) (db : Prisma.t) :
  Prisma.user_by_id (User.id u) db = None ->
  Prisma.user_by_email (User.email u) db = None ->
  well_formed db -> well_formed (Prisma.with_user u db).
Proof.
  intros Hid Hemail Hwf.
  destruct (well_formed_elim db Hwf) as (H1 & H2 & H3 & H4 & H5 & H6 & H7 & H8).
  apply well_formed_intro;
    cbn [Prisma.with_user Prisma.user Prisma.organization
         Prisma.organizationUser Prisma.role]; try assumption.
  - apply NoDup_map_snoc; [exact H1|]. now apply find_key_none.
  - apply NoDup_map_snoc; [exact H2|]. now apply find_key_none.
  - intros m Hm. apply in_map_snoc. now apply H6.
Qed.

Lemma well_formed_with_organizationUser (m : OrganizationUser.t)
    (roles : list string) (db : Prisma.t) :
  Prisma.organizationUser_by_id (OrganizationUser.id m) db = None ->
  Prisma.user_by_id (OrganizationUser.userID m) db <> None ->
  Prisma.organization_by_id (OrganizationUser.organizationID m) db <> None ->
  well_formed db -> well_formed (Prisma.with_organizationUser m roles db).
Proof.
  intros Hid Huser Horg Hwf.
  destruct (well_formed_elim db Hwf) as (H1 & H2 & H3 & H4 & H5 & H6 & H7 & H8).
  apply well_formed_intro;
    cbn [Prisma.with_organizationUser Prisma.user Prisma.organization
         Prisma.organizationUser Prisma.role]; try assumption.
  - apply NoDup_map_snoc; [exact H5|]. now apply find_key_none.
  - intros m' Hm'. apply in_app_iff in Hm'. destruct Hm' as [Hm'|[<-|[]]].
    + now apply H6.
    + now apply find_key_iff in Huser.
  - intros m' Hm'. apply in_app_iff in Hm'. destruct Hm' as [Hm'|[<-|[]]].
    + now apply H7.
    + now apply find_key_iff in Horg.
  - intros r Hr. apply in_app_iff in Hr. destruct Hr as [Hr|Hr].
    + apply in_map_snoc. now apply H8.
    + apply in_map_iff in Hr. destruct Hr as (name & <- & _).
      cbn [Role.organizationUserID]. rewrite map_app, in_app_iff.
      right. now left.
Qed.

Lemma well_formed_with_organization (o : Organization.t) (db : Prisma.t) :
  Prisma.organization_by_id (Organization.id o) db = None ->
  Prisma.organization_by_identifier (Organization.identifier o) db = None ->
  well_formed db -> well_formed (Prisma.with_organization o db).
Proof.
  intros Hid Hident Hwf.
  destruct (well_formed_elim db Hwf) as (H1 & H2 & H3 & H4 & H5 & H6 & H7 & H8).
  apply well_formed_intro;
    cbn [Prisma.with_organization Prisma.user Prisma.organization
         Prisma.organizationUser Prisma.role]; try assumption.
  - apply NoDup_map_snoc; [exact H3|]. now apply find_key_none.
  - apply NoDup_map_snoc; [exact H4|]. now apply find_key_none.
  - intros m Hm. apply in_map_snoc. now apply H7.
Qed.

Lemma well_formed_user_create (u : User.t) (db : Prisma.t) :
  well_formed db -> well_formed (snd (Prisma.user_create u db)).
Proof.
  intros Hwf. unfold Prisma.user_create.
  destruct (Prisma.user_by_id (User.id u) db) eqn:H1; [exact Hwf|].
  destruct (Prisma.user_by_email (User.email u) db) eqn:H2; [exact Hwf|].
  now apply well_formed_with_user.
Qed.

Lemma well_formed_organizationUser_create (m : OrganizationUser.t)
    (roles : list string) (db : Prisma.t) :
  well_formed db ->
  well_formed (snd (Prisma.organizationUser_create m roles db)).
Proof.
  intros Hwf. unfold Prisma.organizationUser_create.
  destruct (Prisma.organizationUser_by_id (OrganizationUser.id m) db) eqn:H1;
    [exact Hwf|].
  destruct (Prisma.user_by_id (OrganizationUser.userID m) db) eqn:H2;
    [|exact Hwf].
  destruct (Prisma.organization_by_id (OrganizationUser.organizationID m) db)
    eqn:H3; [|exact Hwf].
  apply well_formed_with_organizationUser; try assumption.
  - rewrite H2. discriminate.
  - rewrite H3. discriminate.
Qed.

Lemma well_formed_create_with_user (u : User.t) (m : OrganizationUser.t)
    (roles : list string) (db : Prisma.t) :
  OrganizationUser.userID m = User.id u ->
  well_formed db ->
  well_formed (snd (Prisma.organizationUser_create_with_user u m roles db)).
Proof.
  intros Huid Hwf. unfold Prisma.organizationUser_create_with_user,
    Prisma.user_create.
  destruct (Prisma.user_by_id (User.id u) db) eqn:H1; [exact Hwf|].
  destruct (Prisma.user_by_email (User.email u) db) eqn:H2; [exact Hwf|].
  change (Prisma.organization_by_id (OrganizationUser.organizationID m)
            (Prisma.with_user u db))
    with (Prisma.organization_by_id (OrganizationUser.organizationID m) db).
  change (Prisma.organizationUser_by_id (OrganizationUser.id m)
            (Prisma.with_user u db))
    with (Prisma.organizationUser_by_id (OrganizationUser.id m) db).
  destruct (Prisma.organization_by_id (OrganizationUser.organizationID m) db)
    eqn:H3; [|exact Hwf].
  destruct (Prisma.organizationUser_by_id (OrganizationUser.id m) db) eqn:H4;
    [exact Hwf|].
  cbn [snd]. apply well_formed_with_organizationUser.
  - exact H4.
  - apply find_key_iff. rewrite Huid.
    cbn [Prisma.with_user Prisma.user]. rewrite map_app, in_app_iff.
    right. now left.
  - change (Prisma.organization_by_id (OrganizationUser.organizationID m)
              (Prisma.with_user u db))
      with (Prisma.organization_by_id (OrganizationUser.organizationID m) db).
    rewrite H3. discriminate.
  - now apply well_formed_with_user.
Qed.

Lemma well_formed_create_with_organization (o : Organization.t)
    (m : OrganizationUser.t) (db : Prisma.t) :
  OrganizationUser.organizationID m = Organization.id o ->
  well_formed db ->
  well_formed
    (snd (Prisma.organizationUser_create_with_organization o m db)).
Proof.
  intros Hoid Hwf. unfold Prisma.organizationUser_create_with_organization.
  destruct (Prisma.user_by_id (OrganizationUser.userID m) db) eqn:H1;
    [|exact Hwf].
  destruct (Prisma.organization_by_id (Organization.id o) db) eqn:H2;
    [exact Hwf|].
  destruct (Prisma.organization_by_identifier (Organization.identifier o) db)
    eqn:H3; [exact Hwf|].
  destruct (Prisma.organizationUser_by_id (OrganizationUser.id m) db) eqn:H4;
    [exact Hwf|].
  cbn [snd]. apply well_formed_with_organizationUser.
  - exact H4.
  - change (Prisma.user_by_id (OrganizationUser.userID m)
              (Prisma.with_organization o db))
      with (Prisma.user_by_id (OrganizationUser.userID m) db).
    rewrite H1. discriminate.
  - apply find_key_iff. rewrite Hoid.
    cbn [Prisma.with_organization Prisma.organization].
    rewrite map_app, in_app_iff. right. now left.
  - now apply well_formed_with_organization.
Qed.

Lemma well_formed_role_create (r : Role.t) (db : Prisma.t) :
  well_formed db -> well_formed (snd (Prisma.role_create r db)).
Proof.
  intros Hwf. unfold Prisma.role_create.
  destruct (Prisma.organizationUser_by_id (Role.organizationUserID r) db) eqn:H;
    [|exact Hwf].
  destruct (well_formed_elim db Hwf) as (H1 & H2 & H3 & H4 & H5 & H6 & H7 & H8).
  apply well_formed_intro;
    cbn [snd Prisma.user Prisma.organization Prisma.organizationUser
         Prisma.role]; try assumption.
  intros r' Hr'. apply in_app_iff in Hr'. destruct Hr' as [Hr'|[<-|[]]].
  - now apply H8.
  - apply (find_key_iff OrganizationUser.id).
    fold (Prisma.organizationUser_by_id (Role.organizationUserID r) db).
    rewrite H. discriminate.
Qed.

Lemma well_formed_role_deleteMany (name owner : string) (db : Prisma.t) :
  well_formed db -> well_formed (snd (Prisma.role_deleteMany name owner db)).
Proof.
  intros Hwf.
  destruct (well_formed_elim db Hwf) as (H1 & H2 & H3 & H4 & H5 & H6 & H7 & H8).
  apply well_formed_intro;
    cbn [snd Prisma.role_deleteMany Prisma.user Prisma.organization
         Prisma.organizationUser Prisma.role]; try assumption.
  intros r Hr. apply filter_In in Hr. now apply H8.
Qed.

Lemma well_formed_organization_delete (id : string) (db : Prisma.t) :
  well_formed db -> well_formed (snd (Prisma.organization_delete id db)).
Proof.
  intros Hwf. unfold Prisma.organization_delete.
  destruct (Prisma.organization_by_id id db); [|exact Hwf].
  destruct (well_formed_elim db Hwf) as (H1 & H2 & H3 & H4 & H5 & H6 & H7 & H8).
  apply well_formed_intro;
    cbn [snd Prisma.user Prisma.organization Prisma.organizationUser
         Prisma.role]; try assumption.
  - now apply NoDup_map_filter.
  - now apply NoDup_map_filter.
  - now apply NoDup_map_filter.
  - intros m Hm. apply filter_In in Hm. now apply H6.
  - intros m Hm. apply filter_In in Hm. destruct Hm as [Hm Hne].
    apply negb_true_iff, String.eqb_neq in Hne.
    specialize (H7 m Hm). apply in_map_iff in H7.
    destruct H7 as (o & Ho & Hin). apply in_map_iff. exists o.
    split; [exact Ho|]. apply filter_In. split; [exact Hin|].
    apply negb_true_iff, String.eqb_neq. congruence.
  - intros r Hr. apply filter_In in Hr. destruct Hr as [Hr Hkeep].
    apply negb_true_iff in Hkeep.
    specialize (H8 r Hr). apply in_map_iff in H8.
    destruct H8 as (m & Hm & Hin). apply in_map_iff. exists m.
    split; [exact Hm|]. apply filter_In. split; [exact Hin|].
    apply negb_true_iff.
    destruct (String.eqb (OrganizationUser.organizationID m) id) eqn:E;
      [|reflexivity].
    exfalso. apply not_true_iff_false in Hkeep. apply Hkeep.
    apply existsb_exists. exists (OrganizationUser.id m). split.
    + apply in_map. apply filter_In. now split.
    + rewrite Hm. apply String.eqb_refl.
Qed.

Lemma well_formed_without (m : OrganizationUser.t) (w : World) :
  well_formed (prisma w) -> well_formed (prisma (without m w)).
Proof.
  intros Hwf.
  destruct (well_formed_elim _ Hwf) as (H1 & H2 & H3 & H4 & H5 & H6 & H7 & H8).
  apply well_formed_intro;
    cbn [without prisma Prisma.user Prisma.organization
         Prisma.organizationUser Prisma.role]; try assumption.
  - now apply NoDup_map_filter.
  - intros m' Hm'. apply filter_In in Hm'. now apply H6.
  - intros m' Hm'. apply filter_In in Hm'. now apply H7.
  - intros r Hr. apply filter_In in Hr. destruct Hr as [Hr Hne].
    specialize (H8 r Hr). apply in_map_iff in H8.
    destruct H8 as (m' & Hm' & Hin). apply in_map_iff. exists m'.
    split; [exact Hm'|]. apply filter_In. split; [exact Hin|].
    now rewrite Hm'.
Qed.

Lemma well_formed_leaveOrganization (userID org : string) (w : World) :
  well_formed (prisma w) ->
  well_formed (prisma (snd (leaveOrganization userID org w))).
Proof.
  intros Hwf. rewrite leaveOrganization_cases.
  destruct (Prisma.organizationUser_findFirst _ (prisma w)) as [m|];
    [|exact Hwf].
  destruct (OrganizationUser.isAdmin m && _); [exact Hwf|].
  now apply well_formed_without.
Qed.

(** X20: every call of the service keeps the relational store well
    formed: ids, emails and identifiers stay unique, every membership
    still points to a user and an organization of the table, and every
    role label to a membership, whether the call returns or throws. *)
Theorem after_well_formed (keys : Keys)
    (digest : string -> nat -> string -> string) (c : Call) (w : World) :
  well_formed (prisma w) -> well_formed (prisma (after keys digest c w)).
Proof.
  apply after_invariant.
  - apply well_formed_user_create.
  - intros m roles db _. apply well_formed_organizationUser_create.
  - intros u m roles db _. apply well_formed_create_with_user.
  - intros o m db _. apply well_formed_create_with_organization.
  - apply well_formed_role_create.
  - apply well_formed_role_deleteMany.
  - apply well_formed_organization_delete.
  - apply well_formed_leaveOrganization.
Qed.

Ltac sample_rows :=
  let x := fresh "x" in
  let Hx := fresh "Hx" in
  intros x Hx; simpl in Hx; intuition (subst; simpl; auto).

Lemma well_formed_w_two_admins : well_formed (prisma w_two_admins).
Proof.
  apply well_formed_intro;
    try (vm_compute; repeat constructor; simpl; intuition discriminate);
    sample_rows.
Qed.

Lemma after_well_formed_witness :
  well_formed
    (prisma (after keys0 digest0 (DeleteOrganization "org1") w_two_admins)).
Proof.
  apply (after_well_formed keys0 digest0 (DeleteOrganization "org1")
           w_two_admins).
  exact well_formed_w_two_admins.
Defined.

(** ** One admin per organization *)

Lemma one_admin_each_same (db db' : Prisma.t) :
  Prisma.organization db' = Prisma.organization db ->
  Prisma.organizationUser db' = Prisma.organizationUser db ->
  one_admin_each db -> one_admin_each db'.
Proof.
  intros Ho Hm K o Hin. rewrite Ho in Hin. specialize (K o Hin).
  unfold admins, Prisma.organizationUser_findMany in *. now rewrite Hm.
Qed.

Lemma one_admin_each_member (db db' : Prisma.t) (m : OrganizationUser.t) :
  Prisma.organization db' = Prisma.organization db ->
  Prisma.organizationUser db' = Prisma.organizationUser db ++ [m] ->
  OrganizationUser.isAdmin m = false ->
  one_admin_each db -> one_admin_each db'.
Proof.
  intros Ho Hm Hadmin K o Hin. rewrite Ho in Hin. specialize (K o Hin).
  unfold admins, Prisma.organizationUser_findMany in *.
  rewrite Hm, filter_app_list. cbn [List.filter].
  unfold admin_of at 2. rewrite Hadmin. cbn [andb].
  now rewrite app_nil_r.
Qed.

Lemma one_admin_each_user_create (u : User.t) (db : Prisma.t) :
  one_admin_each db -> one_admin_each (snd (Prisma.user_create u db)).
Proof.
  intros K. unfold Prisma.user_create.
  destruct (Prisma.user_by_id (User.id u) db); [exact K|].
  destruct (Prisma.user_by_email (User.email u) db); [exact K|].
  now apply (one_admin_each_same db).
Qed.

Lemma one_admin_each_organizationUser_create (m : OrganizationUser.t)
    (roles : list string) (db : Prisma.t) :
  OrganizationUser.isAdmin m = false ->
  one_admin_each db ->
  one_admin_each (snd (Prisma.organizationUser_create m roles db)).
Proof.
  intros Hadmin K. unfold Prisma.organizationUser_create.
  destruct (Prisma.organizationUser_by_id (OrganizationUser.id m) db);
    [exact K|].
  destruct (Prisma.user_by_id (OrganizationUser.userID m) db); [|exact K].
  destruct (Prisma.organization_by_id (OrganizationUser.organizationID m) db);
    [|exact K].
  now apply (one_admin_each_member db _ m).
Qed.

Lemma one_admin_each_create_with_user (u : User.t) (m : OrganizationUser.t)
    (roles : list string) (db : Prisma.t) :
  OrganizationUser.isAdmin m = false ->
  one_admin_each db ->
  one_admin_each
    (snd (Prisma.organizationUser_create_with_user u m roles db)).
Proof.
  intros Hadmin K. unfold Prisma.organizationUser_create_with_user,
    Prisma.user_create.
  destruct (Prisma.user_by_id (User.id u) db); [exact K|].
  destruct (Prisma.user_by_email (User.email u) db); [exact K|].
  destruct (Prisma.organization_by_id _ (Prisma.with_user u db)); [|exact K].
  destruct (Prisma.organizationUser_by_id _ (Prisma.with_user u db));
    [exact K|].
  now apply (one_admin_each_member db _ m).
Qed.

(** No membership refers to an organization that is not in the table. *)
Lemma no_admins_of_unknown (id : string) (db : Prisma.t) :
  well_formed db ->
  Prisma.organization_by_id id db = None ->
  admins id db = [].
Proof.
  intros Hwf Hnone. unfold admins, Prisma.organizationUser_findMany.
  destruct (List.filter (admin_of id) (Prisma.organizationUser db))
    as [|m l] eqn:E; [reflexivity|].
  assert (Hm : In m (m :: l)) by now left.
  rewrite <- E in Hm. apply filter_In in Hm. destruct Hm as [Hin Ha].
  unfold admin_of in Ha. apply andb_true_iff in Ha. destruct Ha as [_ Horg].
  apply String.eqb_eq in Horg.
  pose proof (wf_membership_organizations db Hwf m Hin) as Hfk.
  rewrite Horg, Hnone in Hfk. contradiction.
Qed.

Lemma one_admin_each_create_with_organization (o : Organization.t)
    (m : OrganizationUser.t) (db : Prisma.t) :
  OrganizationUser.isAdmin m = true ->
  OrganizationUser.organizationID m = Organization.id o ->
  well_formed db ->
  one_admin_each db ->
  one_admin_each
    (snd (Prisma.organizationUser_create_with_organization o m db)).
Proof.
  intros Hadmin Hoid Hwf K.
  unfold Prisma.organizationUser_create_with_organization.
  destruct (Prisma.user_by_id (OrganizationUser.userID m) db); [|exact K].
  destruct (Prisma.organization_by_id (Organization.id o) db) eqn:H2;
    [exact K|].
  destruct (Prisma.organization_by_identifier (Organization.identifier o) db);
    [exact K|].
  destruct (Prisma.organizationUser_by_id (OrganizationUser.id m) db);
    [exact K|].
  cbn [snd]. intros o' Hin.
  cbn [Prisma.with_organizationUser Prisma.with_organization
       Prisma.organization] in Hin.
  unfold admins, Prisma.organizationUser_findMany.
  cbn [Prisma.with_organizationUser Prisma.with_organization
       Prisma.organizationUser].
  rewrite filter_app_list, length_app. cbn [List.filter].
  unfold admin_of at 2. rewrite Hadmin, Hoid. cbn [andb].
  apply in_app_iff in Hin. destruct Hin as [Hin|[<-|[]]].
  - specialize (K o' Hin). unfold admins, Prisma.organizationUser_findMany in K.
    rewrite K.
    assert (E : String.eqb (Organization.id o) (Organization.id o') = false).
    { apply String.eqb_neq. intros E.
      apply (find_key_none Organization.id _ _ H2).
      rewrite E. now apply in_map. }
    rewrite E. reflexivity.
  - pose proof (no_admins_of_unknown _ db Hwf H2) as E.
    unfold admins, Prisma.organizationUser_findMany in E. rewrite E.
    now rewrite String.eqb_refl.
Qed.

Lemma filter_filter_implied {A : Type} (p q : A -> bool) (l : list A) :
  (forall x, In x l -> p x = true -> q x = true) ->
  List.filter p (List.filter q l) = List.filter p l.
Proof.
  induction l as [|a l IH]; intros H; [reflexivity|].
  cbn [List.filter].
  destruct (q a) eqn:Eq; cbn [List.filter].
  - rewrite IH; [reflexivity|]. intros x Hx. apply H. now right.
  - destruct (p a) eqn:Ep.
    + rewrite (H a (or_introl eq_refl) Ep) in Eq. discriminate.
    + apply IH. intros x Hx. apply H. now right.
Qed.

Lemma one_admin_each_organization_delete (id : string) (db : Prisma.t) :
  one_admin_each db ->
  one_admin_each (snd (Prisma.organization_delete id db)).
Proof.
  intros K. unfold Prisma.organization_delete.
  destruct (Prisma.organization_by_id id db); [|exact K].
  cbn [snd]. intros o Hin. cbn [Prisma.organization] in Hin.
  apply filter_In in Hin. destruct Hin as [Hin Hne].
  apply negb_true_iff, String.eqb_neq in Hne.
  specialize (K o Hin). unfold admins, Prisma.organizationUser_findMany in *.
  cbn [Prisma.organizationUser]. rewrite filter_filter_implied; [exact K|].
  intros m _ Ha. unfold admin_of in Ha. apply andb_true_iff in Ha.
  destruct Ha as [_ Horg]. apply String.eqb_eq in Horg.
  apply negb_true_iff, String.eqb_neq. congruence.
Qed.

Lemma one_admin_each_leaveOrganization (userID org : string) (w : World) :
  well_formed (prisma w) ->
  one_admin_each (prisma w) ->
  one_admin_each (prisma (snd (leaveOrganization userID org w))).
Proof.
  intros Hwf K. rewrite leaveOrganization_cases.
  destruct (Prisma.organizationUser_findFirst _ (prisma w)) as [m|] eqn:Hm;
    [|exact K].
  destruct (leaveOrganization_found _ _ _ _ Hm) as (Hin & _ & Horg & _).
  destruct (OrganizationUser.isAdmin m) eqn:Hadmin; cbn [andb].
  - (* an admin: the organization exists, so the count is one *)
    pose proof (wf_membership_organizations _ Hwf m Hin) as Hfk.
    rewrite Horg in Hfk.
    destruct (Prisma.organization_by_id org (prisma w)) as [o|] eqn:Ho;
      [|contradiction].
    apply find_some in Ho. destruct Ho as [Ho Hid].
    apply String.eqb_eq in Hid. pose proof (K o Ho) as K1.
    rewrite Hid in K1. rewrite K1. exact K.
  - cbn [snd]. intros o Ho.
    change (Prisma.organization (prisma (without m w)))
      with (Prisma.organization (prisma w)) in Ho.
    pose proof (admins_without (Organization.id o) w m
                  (wf_membership_ids _ Hwf) Hin) as Hlen.
    unfold admin_of in Hlen. rewrite Hadmin in Hlen. cbn [andb] in Hlen.
    specialize (K o Ho). lia.
Qed.

Lemma after_one_admin_each (keys : Keys)
    (digest : string -> nat -> string -> string) (c : Call) (w : World) :
  well_formed (prisma w) /\ one_admin_each (prisma w) ->
  well_formed (prisma (after keys digest c w))
  /\ one_admin_each (prisma (after keys digest c w)).
Proof.
  apply (after_invariant keys digest
           (fun db => well_formed db /\ one_admin_each db)).
  - intros u db [Hwf K]. split;
      [now apply well_formed_user_create|now apply one_admin_each_user_create].
  - intros m roles db Hadmin [Hwf K]. split;
      [now apply well_formed_organizationUser_create
      |now apply one_admin_each_organizationUser_create].
  - intros u m roles db Hadmin Huid [Hwf K]. split;
      [now apply well_formed_create_with_user
      |now apply one_admin_each_create_with_user].
  - intros o m db Hadmin Hoid [Hwf K]. split;
      [now apply well_formed_create_with_organization
      |now apply one_admin_each_create_with_organization].
  - intros r db [Hwf K]. split; [now apply well_formed_role_create|].
    apply (one_admin_each_same db); [| |exact K];
      unfold Prisma.role_create;
      now destruct (Prisma.organizationUser_by_id _ db).
  - intros name owner db [Hwf K]. split;
      [now apply well_formed_role_deleteMany|].
    now apply (one_admin_each_same db).
  - intros id db [Hwf K]. split;
      [now apply well_formed_organization_delete
      |now apply one_admin_each_organization_delete].
  - intros userID org w' [Hwf K]. split;
      [now apply well_formed_leaveOrganization
      |now apply one_admin_each_leaveOrganization].
Qed.

Lemma run_calls_keep (keys : Keys)
    (digest : string -> nat -> string -> string) (I : World -> Prop) :
  (forall c w, I w -> I (after keys digest c w)) ->
  forall calls w, I w -> I (run_calls keys digest calls w).
Proof.
  intros Hstep calls. unfold run_calls.
  induction calls as [|c calls IH]; intros w HI; [exact HI|].
  cbn [fold_left]. apply IH. now apply Hstep.
Qed.

(** X21: in a well-formed store where every organization has exactly one
    admin membership, this stays so after any sequence of calls of the
    service: no call adds a second admin to an organization and none
    removes the only one while the organization exists. *)
Theorem calls_keep_one_admin (keys : Keys)
    (digest : string -> nat -> string -> string) (calls : list Call)
    (w : World) :
  well_formed (prisma w) ->
  one_admin_each (prisma w) ->
  well_formed (prisma (run_calls keys digest calls w))
  /\ one_admin_each (prisma (run_calls keys digest calls w)).
Proof.
  intros Hwf K.
  apply (run_calls_keep keys digest
           (fun w => well_formed (prisma w) /\ one_admin_each (prisma w))).
  - intros c w'. apply after_one_admin_each.
  - now split.
Qed.

Lemma well_formed_w0 : well_formed (prisma w0).
Proof.
  apply well_formed_intro;
    try (vm_compute; repeat constructor; simpl; intuition discriminate);
    sample_rows.
Qed.

Lemma one_admin_each_w0 : one_admin_each (prisma w0).
Proof. intros o Ho. simpl in Ho. destruct Ho as [<-|[]]. reflexivity. Qed.

Lemma calls_keep_one_admin_witness :
  one_admin_each
    (prisma
       (run_calls keys0 digest0
          [CreateOrganization (fun i => 17 * i + 3) "org2" "m9" "u1" "Beta";
           AddUser "u2" "m2" "bob@x.io" "Bob" "hunter2" "org2" ["dev"];
           LeaveOrganization "u1" "org2";
           DeleteOrganization "org1"]
          w0)).
Proof.
  apply (calls_keep_one_admin keys0 digest0
           [CreateOrganization (fun i => 17 * i + 3) "org2" "m9" "u1" "Beta";
            AddUser "u2" "m2" "bob@x.io" "Bob" "hunter2" "org2" ["dev"];
            LeaveOrganization "u1" "org2";
            DeleteOrganization "org1"]
           w0).
  - exact well_formed_w0.
  - exact one_admin_each_w0.
Defined.

(** X22: so an admin never gets out. Starting from such a store, after
    any sequence of calls, [leaveOrganization] that finds an admin
    membership throws "admin cannot leave organization" and changes
    nothing: the service has no call that makes a second admin. *)
Theorem admin_never_leaves (keys : Keys)
    (digest : string -> nat -> string -> string) (calls : list Call)
    (w : World) (userID org : string) (m : OrganizationUser.t) :
  well_formed (prisma w) ->
  one_admin_each (prisma w) ->
  let w' := run_calls keys digest calls w in
  Prisma.organizationUser_findFirst (member_of userID org) (prisma w') = Some m ->
  OrganizationUser.isAdmin m = true ->
  leaveOrganization userID org w'
  = (Thrown (Error "admin cannot leave organization"), w').
Proof.
  intros Hwf K w' Hm Hadmin.
  assert (Hinv : well_formed (prisma w') /\ one_admin_each (prisma w')).
  { apply (run_calls_keep keys digest
             (fun w => well_formed (prisma w) /\ one_admin_each (prisma w))).
    - intros c w0. apply after_one_admin_each.
    - now split. }
  destruct Hinv as [Hwf' K'].
  destruct (leaveOrganization_found _ _ _ _ Hm) as (Hin & _ & Horg & _).
  pose proof (wf_membership_organizations _ Hwf' m Hin) as Hfk.
  rewrite Horg in Hfk.
  destruct (Prisma.organization_by_id org (prisma w')) as [o|] eqn:Ho;
    [|contradiction].
  apply find_some in Ho. destruct Ho as [Ho Hid].
  apply String.eqb_eq in Hid. pose proof (K' o Ho) as K1. rewrite Hid in K1.
  rewrite leaveOrganization_cases, Hm, Hadmin, K1. reflexivity.
Qed.

Lemma admin_never_leaves_witness :
  fst (leaveOrganization "u1" "org2"
         (run_calls keys0 digest0
            [CreateOrganization (fun i => 17 * i + 3) "org2" "m9" "u1" "Beta";
             AddUser "u2" "m2" "bob@x.io" "Bob" "hunter2" "org2" ["dev"]]
            w0))
  = Thrown (Error "admin cannot leave organization").
Proof.
  rewrite (admin_never_leaves keys0 digest0
             [CreateOrganization (fun i => 17 * i + 3) "org2" "m9" "u1" "Beta";
              AddUser "u2" "m2" "bob@x.io" "Bob" "hunter2" "org2" ["dev"]]
             w0 "u1" "org2"
             {| OrganizationUser.id := "m9"; OrganizationUser.userID := "u1";
                OrganizationUser.organizationID := "org2";
                OrganizationUser.isAdmin := true |}).
  - reflexivity.
  - exact well_formed_w0.
  - exact one_admin_each_w0.
  - vm_compute. reflexivity.
  - reflexivity.
Defined.

(** ** Users are only ever added *)

Lemma users_kept_after (keys : Keys)
    (digest : string -> nat -> string -> string) (users : list User.t)
    (c : Call) (w : World) :
  (exists more, Prisma.user (prisma w) = users ++ more) ->
  exists more, Prisma.user (prisma (after keys digest c w)) = users ++ more.
Proof.
  apply (after_invariant keys digest
           (fun db => exists more, Prisma.user db = users ++ more)).
  - intros u db [more E]. unfold Prisma.user_create.
    destruct (Prisma.user_by_id _ db); [now exists more|].
    destruct (Prisma.user_by_email _ db); [now exists more|].
    exists (more ++ [u]). cbn [snd Prisma.with_user Prisma.user].
    now rewrite E, app_assoc.
  - intros m roles db _ [more E]. unfold Prisma.organizationUser_create.
    destruct (Prisma.organizationUser_by_id _ db); [now exists more|].
    destruct (Prisma.user_by_id _ db); [|now exists more].
    destruct (Prisma.organization_by_id _ db); now exists more.
  - intros u m roles db _ _ [more E].
    unfold Prisma.organizationUser_create_with_user, Prisma.user_create.
    destruct (Prisma.user_by_id _ db); [now exists more|].
    destruct (Prisma.user_by_email _ db); [now exists more|].
    destruct (Prisma.organization_by_id _ _); [|now exists more].
    destruct (Prisma.organizationUser_by_id _ _); [now exists more|].
    exists (more ++ [u]).
    cbn [snd Prisma.with_organizationUser Prisma.with_user Prisma.user].
    now rewrite E, app_assoc.
  - intros o m db _ _ [more E].
    unfold Prisma.organizationUser_create_with_organization.
    destruct (Prisma.user_by_id _ db); [|now exists more].
    destruct (Prisma.organization_by_id _ db); [now exists more|].
    destruct (Prisma.organization_by_identifier _ db); [now exists more|].
    destruct (Prisma.organizationUser_by_id _ db); now exists more.
  - intros r db [more E]. unfold Prisma.role_create.
    destruct (Prisma.organizationUser_by_id _ db); now exists more.
  - intros name owner db [more E]. now exists more.
  - intros id db [more E]. unfold Prisma.organization_delete.
    destruct (Prisma.organization_by_id id db); now exists more.
  - intros userID org w' [more E]. rewrite leaveOrganization_cases.
    destruct (Prisma.organizationUser_findFirst _ (prisma w'));
      [|now exists more].
    destruct (OrganizationUser.isAdmin _ && _); now exists more.
Qed.

(** X23: no call of the service removes or changes a user row. After any
    sequence of calls the user table is the old table, in its order,
    followed by the users created since; in particular the credential
    data of an existing user is never rewritten. *)
Theorem users_only_added (keys : Keys)
    (digest : string -> nat -> string -> string) (calls : list Call)
    (w : World) :
  exists more,
    Prisma.user (prisma (run_calls keys digest calls w))
    = Prisma.user (prisma w) ++ more.
Proof.
  apply (run_calls_keep keys digest
           (fun w' => exists more,
                Prisma.user (prisma w') = Prisma.user (prisma w) ++ more)).
  - intros c w'. apply users_kept_after.
  - exists []. now rewrite app_nil_r.
Qed.
